(** * The scrollable viewport of sqlite-tui ([viewer/viewport.go])

    A shallow embedding of [ViewportModel] and of its methods, followed by
    the properties of the scroll-offset state machine.

    Conventions of the embedding:
    - Go's [int] is taken at its 64-bit width: a [Z] together with the
      wrap-around of every addition and subtraction ([Int.add], [Int.sub]).
    - A slice expression [s[lo:hi]] panics unless [0 <= lo <= hi <= len s];
      [strings.Repeat] panics on a negative count.  Both are kept: a method
      yields an [outcome], which is [Ok] with a value or [Panic].
    - Methods with a pointer receiver run in the monad [M], which threads
      the model and keeps the model as it stands when a panic is raised
      (the assignment to [YOffset] precedes the slice expression in every
      navigation method).
    - The empty slice and the [nil] slice are both the empty list.
    - [Update], [Sync] and the commands built on the host framework only
      dispatch to the methods below and are not embedded. *)

From Stdlib Require Import ZArith List Bool Lia ZifyBool.
From Stdlib Require Import Ascii String.
From Stdlib Require Import DecimalString.
From Stdlib Require Import SpecFloat.
Import ListNotations.

Local Open Scope Z_scope.

(** ** Machine integers *)

Module Int.

Definition half_modulus : Z := 2 ^ 63.
Definition modulus : Z := 2 ^ 64.
Definition min_int : Z := - half_modulus.
Definition max_int : Z := half_modulus - 1.

(** Two's complement reduction into [min_int .. max_int]. *)
Definition wrap (z : Z) : Z := (z + half_modulus) mod modulus - half_modulus.

Definition add (a b : Z) : Z := wrap (a + b).
Definition sub (a b : Z) : Z := wrap (a - b).

(** [a / b] of Go truncates toward zero. *)
Definition div (a b : Z) : Z := wrap (Z.quot a b).

Definition in_range (z : Z) : Prop := min_int <= z <= max_int.

End Int.

(** ** Outcomes and the model *)

Inductive outcome (A : Type) : Type :=
| Ok (a : A)
| Panic.

Arguments Ok {A} a.
Arguments Panic {A}.

Record ViewportModel : Type := mkViewportModel {
  Width : Z;
  Height : Z;
  YOffset : Z;
  YPosition : Z;
  HighPerformanceRendering : bool;
  lines : list string
}.

Definition set_YOffset (y : Z) (m : ViewportModel) : ViewportModel :=
  mkViewportModel (Width m) (Height m) y (YPosition m)
    (HighPerformanceRendering m) (lines m).

Definition set_lines (l : list string) (m : ViewportModel) : ViewportModel :=
  mkViewportModel (Width m) (Height m) (YOffset m) (YPosition m)
    (HighPerformanceRendering m) l.

(** The caller's assignment [m.Height = h] to the exported field. *)
Definition set_Height (h : Z) (m : ViewportModel) : ViewportModel :=
  mkViewportModel (Width m) h (YOffset m) (YPosition m)
    (HighPerformanceRendering m) (lines m).

(** The zero value of the struct. *)
Definition zero_model : ViewportModel :=
  mkViewportModel 0 0 0 0 false [].

(** ** The state-and-panic monad of pointer-receiver methods *)

Definition M (A : Type) : Type := ViewportModel -> outcome A * ViewportModel.

Definition ret {A : Type} (a : A) : M A := fun m => (Ok a, m).

Definition bind {A B : Type} (c : M A) (k : A -> M B) : M B :=
  fun m =>
    match c m with
    | (Ok a, m') => k a m'
    | (Panic, m') => (Panic, m')
    end.

Definition get : M ViewportModel := fun m => (Ok m, m).

Definition put_YOffset (y : Z) : M unit := fun m => (Ok tt, set_YOffset y m).

Definition put_lines (l : list string) : M unit :=
  fun m => (Ok tt, set_lines l m).

Definition lift {A : Type} (o : outcome A) : M A := fun m => (o, m).

Notation "x <- c ;; k" := (bind c (fun x => k))
  (at level 61, c at next level, right associativity).
Notation "c ;;; k" := (bind c (fun _ => k))
  (at level 61, right associativity).

Definition result {A : Type} (r : outcome A * ViewportModel) : outcome A := fst r.
Definition after {A : Type} (r : outcome A * ViewportModel) : ViewportModel := snd r.

(** ** Helpers of the source file: [min], [max], [clamp] *)

Definition min (a b : Z) : Z := if a <? b then a else b.
Definition max (a b : Z) : Z := if a >? b then a else b.
Definition clamp (v low high : Z) : Z := min high (max low v).

(** ** Slices and the [strings] functions the source calls *)

Definition len {A : Type} (l : list A) : Z := Z.of_nat (List.length l).

(** [l[lo:hi]]; the capacity of [lines] is its length ([strings.Split]
    returns a full slice). *)
Definition slice {A : Type} (l : list A) (lo hi : Z) : outcome (list A) :=
  if (0 <=? lo) && (lo <=? hi) && (hi <=? len l)
  then Ok (firstn (Z.to_nat (hi - lo)) (skipn (Z.to_nat lo) l))
  else Panic.

Definition LF : ascii := ascii_of_nat 10.
Definition CR : ascii := ascii_of_nat 13.
Definition newline : string := String LF EmptyString.

(** [strings.Replace(s, "\r\n", "\n", -1)]. *)
Fixpoint normalize (s : string) : string :=
  match s with
  | EmptyString => EmptyString
  | String c s' =>
      match s' with
      | String c' s'' =>
          if Ascii.eqb c CR && Ascii.eqb c' LF
          then String LF (normalize s'')
          else String c (normalize s')
      | EmptyString => String c EmptyString
      end
  end.

(** [strings.Split(s, "\n")]: never empty, the empty string gives one
    empty field. *)
Fixpoint split_lines (s : string) : list string :=
  match s with
  | EmptyString => [EmptyString]
  | String c s' =>
      if Ascii.eqb c LF then EmptyString :: split_lines s'
      else match split_lines s' with
           | h :: t => String c h :: t
           | [] => [String c EmptyString]
           end
  end.

(** [strings.Join(l, "\n")]. *)
Fixpoint join (l : list string) : string :=
  match l with
  | [] => EmptyString
  | [a] => a
  | a :: rest => a ++ newline ++ join rest
  end.

Fixpoint repeat_string (s : string) (n : nat) : string :=
  match n with
  | O => EmptyString
  | S n' => s ++ repeat_string s n'
  end.

(** [strings.Repeat(s, count)]. *)
Definition Repeat (s : string) (count : Z) : outcome string :=
  if count <? 0 then Panic else Ok (repeat_string s (Z.to_nat count)).

(** ** State queries *)

Definition AtTop (m : ViewportModel) : bool := YOffset m <=? 0.

(** [len(m.lines)-1-m.Height], which the source writes out in [AtBottom],
    in [PastBottom] and as the fallback of every downward method. *)
Definition bottom_offset (m : ViewportModel) : Z :=
  Int.sub (Int.sub (len (lines m)) 1) (Height m).

Definition AtBottom (m : ViewportModel) : bool := YOffset m >=? bottom_offset m.

Definition PastBottom (m : ViewportModel) : bool := YOffset m >? bottom_offset m.

Definition visibleLines (m : ViewportModel) : outcome (list string) :=
  if len (lines m) >? 0 then
    let top := max 0 (YOffset m) in
    let bottom := clamp (Int.add (YOffset m) (Height m)) top (len (lines m)) in
    slice (lines m) top bottom
  else Ok [].

(** ** Navigation *)

Definition ViewDown : M (list string) :=
  m <- get ;;
  if AtBottom m then ret []
  else
    put_YOffset (min (Int.add (YOffset m) (Height m)) (bottom_offset m)) ;;;
    m <- get ;;
    lift (visibleLines m).

Definition ViewUp : M (list string) :=
  m <- get ;;
  if AtTop m then ret []
  else
    put_YOffset (max (Int.sub (YOffset m) (Height m)) 0) ;;;
    m <- get ;;
    lift (visibleLines m).

Definition HalfViewDown : M (list string) :=
  m <- get ;;
  if AtBottom m then ret []
  else
    put_YOffset
      (min (Int.add (YOffset m) (Int.div (Height m) 2)) (bottom_offset m)) ;;;
    m <- get ;;
    if len (lines m) >? 0 then
      let top := max (Int.add (YOffset m) (Int.div (Height m) 2)) 0 in
      let bottom :=
        clamp (Int.add (YOffset m) (Height m)) top
          (Int.sub (len (lines m)) 1) in
      lift (slice (lines m) top bottom)
    else ret [].

Definition HalfViewUp : M (list string) :=
  m <- get ;;
  if AtTop m then ret []
  else
    put_YOffset (max (Int.sub (YOffset m) (Int.div (Height m) 2)) 0) ;;;
    m <- get ;;
    if len (lines m) >? 0 then
      let top := max (YOffset m) 0 in
      let bottom :=
        clamp (Int.add (YOffset m) (Int.div (Height m) 2)) top
          (Int.sub (len (lines m)) 1) in
      lift (slice (lines m) top bottom)
    else ret [].

Definition LineDown (n : Z) : M (list string) :=
  m <- get ;;
  if AtBottom m || (n =? 0) then ret []
  else
    let maxDelta :=
      Int.sub (Int.sub (len (lines m)) 1) (Int.add (YOffset m) (Height m)) in
    let n := min n maxDelta in
    put_YOffset (min (Int.add (YOffset m) n) (bottom_offset m)) ;;;
    m <- get ;;
    if len (lines m) >? 0 then
      let top := max (Int.sub (Int.add (YOffset m) (Height m)) n) 0 in
      let bottom :=
        clamp (Int.add (YOffset m) (Height m)) top
          (Int.sub (len (lines m)) 1) in
      lift (slice (lines m) top bottom)
    else ret [].

Definition LineUp (n : Z) : M (list string) :=
  m <- get ;;
  if AtTop m || (n =? 0) then ret []
  else
    let n := min n (YOffset m) in
    put_YOffset (max (Int.sub (YOffset m) n) 0) ;;;
    m <- get ;;
    if len (lines m) >? 0 then
      let top := max 0 (YOffset m) in
      let bottom :=
        clamp (Int.add (YOffset m) n) top (Int.sub (len (lines m)) 1) in
      lift (slice (lines m) top bottom)
    else ret [].

Definition GotoTop : M (list string) :=
  m <- get ;;
  if AtTop m then ret []
  else
    put_YOffset 0 ;;;
    m <- get ;;
    if len (lines m) >? 0 then
      let top := YOffset m in
      let bottom :=
        clamp (Int.add (YOffset m) (Height m)) top
          (Int.sub (len (lines m)) 1) in
      lift (slice (lines m) top bottom)
    else ret [].

Definition GotoBottom : M (list string) :=
  m <- get ;;
  put_YOffset (max (bottom_offset m) 0) ;;;
  m <- get ;;
  if len (lines m) >? 0 then
    let top := YOffset m in
    let bottom := max (Int.sub (len (lines m)) 1) 0 in
    lift (slice (lines m) top bottom)
  else ret [].

(** ** Content *)

Definition SetContent (s : string) : M unit :=
  put_lines (split_lines (normalize s)) ;;;
  m <- get ;;
  if YOffset m >? Int.sub (len (lines m)) 1
  then GotoBottom ;;; ret tt
  else ret tt.

(** ** Rendering *)

Definition View (m : ViewportModel) : outcome string :=
  if HighPerformanceRendering m then Repeat newline (Int.sub (Height m) 1)
  else
    match visibleLines m with
    | Panic => Panic
    | Ok vis =>
        if len vis <? Height m then
          match Repeat newline (Int.sub (Height m) (len vis)) with
          | Panic => Panic
          | Ok extraLines => Ok (join vis ++ extraLines)%string
          end
        else Ok (join vis ++ EmptyString)%string
    end.

(** ** Scroll percentage

    [float64] is IEEE 754 binary64, here the [spec_float] of the standard
    library at precision 53 and maximal exponent 1024. *)

Module F64.

Definition prec : Z := 53.
Definition emax : Z := 1024.

(** The conversion [float64(i)], to nearest even. *)
Definition of_int (i : Z) : spec_float := binary_normalize prec emax i 0 false.

Definition sub (x y : spec_float) : spec_float := SFsub prec emax x y.
Definition div (x y : spec_float) : spec_float := SFdiv prec emax x y.
Definition ltb (x y : spec_float) : bool := SFltb x y.
Definition eqb (x y : spec_float) : bool := SFeqb x y.

Definition zero : spec_float := of_int 0.
Definition one : spec_float := of_int 1.

Definition is_nan (x : spec_float) : bool :=
  match x with S754_nan => true | _ => false end.

Definition is_inf (x : spec_float) (negative : bool) : bool :=
  match x with S754_infinity s => Bool.eqb s negative | _ => false end.

Definition signbit (x : spec_float) : bool :=
  match x with
  | S754_zero s | S754_infinity s | S754_finite s _ _ => s
  | S754_nan => false
  end.

(** [math.Min] and [math.Max], with their special cases. *)
Definition Min (x y : spec_float) : spec_float :=
  if is_inf x true || is_inf y true then S754_infinity true
  else if is_nan x || is_nan y then S754_nan
  else if eqb x zero && eqb x y then (if signbit x then x else y)
  else if ltb x y then x else y.

Definition Max (x y : spec_float) : spec_float :=
  if is_inf x false || is_inf y false then S754_infinity false
  else if is_nan x || is_nan y then S754_nan
  else if eqb x zero && eqb x y then (if signbit x then y else x)
  else if ltb y x then x else y.

(** [0.0 <= x <= 1.0]; false on NaN. *)
Definition in_unit_interval (x : spec_float) : bool :=
  SFleb zero x && SFleb x one.

End F64.

Definition ScrollPercent (m : ViewportModel) : spec_float :=
  if Height m >=? len (lines m) then F64.one
  else
    let y := F64.of_int (YOffset m) in
    let h := F64.of_int (Height m) in
    let t := F64.of_int (Int.sub (len (lines m)) 1) in
    let v := F64.div y (F64.sub t h) in
    F64.Max F64.zero (F64.Min F64.one v).

(** ** Sequences of calls *)

Inductive NavOp : Type :=
| OpViewDown
| OpViewUp
| OpHalfViewDown
| OpHalfViewUp
| OpLineDown (n : Z)
| OpLineUp (n : Z)
| OpGotoTop
| OpGotoBottom.

Definition run_op (op : NavOp) : M (list string) :=
  match op with
  | OpViewDown => ViewDown
  | OpViewUp => ViewUp
  | OpHalfViewDown => HalfViewDown
  | OpHalfViewUp => HalfViewUp
  | OpLineDown n => LineDown n
  | OpLineUp n => LineUp n
  | OpGotoTop => GotoTop
  | OpGotoBottom => GotoBottom
  end.

(** What a caller does to the model: a navigation call, a content
    replacement, or an assignment to the exported [Height] field. *)
Inductive Call : Type :=
| Nav (op : NavOp)
| Content (s : string)
| Resize (h : Z).

Definition run_call (c : Call) : M unit :=
  match c with
  | Nav op => run_op op ;;; ret tt
  | Content s => SetContent s
  | Resize h => fun m => (Ok tt, set_Height h m)
  end.

(** The models after each call of a sequence, in order; a panic ends the
    run (the list then stops at the model the panic left). *)
Fixpoint trace (cs : list Call) (m : ViewportModel) : list ViewportModel :=
  match cs with
  | [] => []
  | c :: cs' =>
      match run_call c m with
      | (Ok _, m') => m' :: trace cs' m'
      | (Panic, m') => [m']
      end
  end.

(** Whether a sequence of calls runs to its end. *)
Fixpoint completes (cs : list Call) (m : ViewportModel) : bool :=
  match cs with
  | [] => true
  | c :: cs' =>
      match run_call c m with
      | (Ok _, m') => completes cs' m'
      | (Panic, _) => false
      end
  end.

(** Content made of the decimal numerals [a], [a+1], ..., one per line. *)
Fixpoint numbered (a count : nat) : string :=
  match count with
  | O => EmptyString
  | S O => NilEmpty.string_of_uint (Nat.to_uint a)
  | S count' =>
      (NilEmpty.string_of_uint (Nat.to_uint a) ++ newline
         ++ numbered (S a) count')%string
  end.

(** ** Well-formed models

    Every value of Go's [int] lies in the machine range, and [len] of a
    slice does too. *)

Definition well_formed (m : ViewportModel) : Prop :=
  Int.in_range (Height m) /\ Int.in_range (YOffset m)
  /\ len (lines m) <= Int.max_int.

(** The bound that navigation maintains on the offset. *)
Definition bounded (m : ViewportModel) : Prop :=
  YOffset m <= Z.max 0 (len (lines m) - 1 - Height m).

(** What every call maintains, content and height changes included: a
    non-negative height and an offset that designates a line (or is 0). *)
Definition settled (m : ViewportModel) : Prop :=
  well_formed m /\ 0 <= Height m
  /\ 0 <= YOffset m <= Z.max 0 (len (lines m) - 1).

(** The arguments a caller passes: a non-negative number of lines to
    [LineDown] and [LineUp] ([Update] passes 1 and [mouseWheelDelta] = 3),
    a non-negative height, a content whose length is an [int]. *)
Definition valid_call (c : Call) : Prop :=
  match c with
  | Nav (OpLineDown n) | Nav (OpLineUp n) => 0 <= n <= Int.max_int
  | Nav _ => True
  | Content s => Z.of_nat (String.length s) < Int.max_int
  | Resize h => 0 <= h <= Int.max_int
  end.

Definition is_nav (c : Call) : bool :=
  match c with Nav _ => true | _ => false end.

(** [c] called [k] times in a row; the diff of the last call. *)
Fixpoint times (k : nat) (c : M (list string)) : M (list string) :=
  match k with
  | O => ret []
  | S O => c
  | S k' => c ;;; times k' c
  end.

(** [LineDown(n)] away from its boundaries: the call is not a no-op, [n]
    is not capped by the distance to the bottom, and the target offset is
    not replaced by the fallback. *)
Definition LineDown_unclamped (n : Z) (m : ViewportModel) : Prop :=
  AtBottom m = false
  /\ n <= Int.sub (Int.sub (len (lines m)) 1) (Int.add (YOffset m) (Height m))
  /\ Int.add (YOffset m) n <= bottom_offset m.

(** [LineUp(n)] away from its boundaries, likewise. *)
Definition LineUp_unclamped (n : Z) (m : ViewportModel) : Prop :=
  AtTop m = false /\ n <= YOffset m /\ 0 <= Int.sub (YOffset m) n.

(** ** Commands for the host framework

    The types of the host framework are not part of the source.  A command
    is kept as the constructor the source calls and its arguments; a [nil]
    command is [None].  A message is kept as what [Update] inspects of it:
    the name [msg.String()] of a key, or the type of a mouse event. *)

Inductive Cmd : Type :=
| SyncScrollArea (l : list string) (topBoundary bottomBoundary : Z)
| ScrollUp (l : list string) (topBoundary bottomBoundary : Z)
| ScrollDown (l : list string) (topBoundary bottomBoundary : Z).

Definition mouseWheelDelta : Z := 3.
Definition spacebar : string := " ".

(** The package-level functions [Sync], [ViewDown] and [ViewUp]; the last
    two share their names with methods, hence the module. *)
Module Command.

Definition Sync (m : ViewportModel) : outcome (option Cmd) :=
  if len (lines m) =? 0 then Ok None
  else
    let top := max (YOffset m) 0 in
    let bottom :=
      clamp (Int.add (YOffset m) (Height m)) 0 (Int.sub (len (lines m)) 1) in
    match slice (lines m) top bottom with
    | Panic => Panic
    | Ok l =>
        Ok (Some (SyncScrollArea l (YPosition m)
                    (Int.add (YPosition m) (Height m))))
    end.

Definition ViewDown (m : ViewportModel) (l : list string) : option Cmd :=
  if len l =? 0 then None
  else Some (ScrollDown l (YPosition m) (Int.add (YPosition m) (Height m))).

Definition ViewUp (m : ViewportModel) (l : list string) : option Cmd :=
  if len l =? 0 then None
  else Some (ScrollUp l (YPosition m) (Int.add (YPosition m) (Height m))).

End Command.

Inductive MouseEventType : Type :=
| MouseWheelUp
| MouseWheelDown
| MouseOtherEvent.

Inductive Msg : Type :=
| KeyMsg (name : string)
| MouseMsg (type : MouseEventType)
| OtherMsg.

(** One case of [Update]: the method is called on the copy of the model,
    and in high performance mode its diff is turned into a command. *)
Definition dispatch (method : M (list string))
    (command : ViewportModel -> list string -> option Cmd) : M (option Cmd) :=
  l <- method ;;
  m <- get ;;
  if HighPerformanceRendering m then ret (command m l) else ret None.

Definition key_in (name : string) (names : list string) : bool :=
  existsb (String.eqb name) names.

(** [Update] has a value receiver: the model that the monad threads is the
    copy, which is returned beside the command. *)
Definition Update (msg : Msg) : M (option Cmd) :=
  match msg with
  | KeyMsg name =>
      if key_in name ["pgdown"; spacebar; "f"]%string
      then dispatch ViewDown Command.ViewDown
      else if key_in name ["pgup"; "b"]%string
      then dispatch ViewUp Command.ViewUp
      else if key_in name ["d"; "ctrl+d"]%string
      then dispatch HalfViewDown Command.ViewDown
      else if key_in name ["u"; "ctrl+u"]%string
      then dispatch HalfViewUp Command.ViewUp
      else if key_in name ["down"; "j"]%string
      then dispatch (LineDown 1) Command.ViewDown
      else if key_in name ["up"; "k"]%string
      then dispatch (LineUp 1) Command.ViewUp
      else ret None
  | MouseMsg MouseWheelUp => dispatch (LineUp mouseWheelDelta) Command.ViewUp
  | MouseMsg MouseWheelDown =>
      dispatch (LineDown mouseWheelDelta) Command.ViewDown
  | MouseMsg MouseOtherEvent => ret None
  | OtherMsg => ret None
  end.

(** The number of newline characters of a string: one less than the
    number of rows it spans. *)
Fixpoint count_LF (s : string) : nat :=
  match s with
  | EmptyString => O
  | String c s' => if Ascii.eqb c LF then S (count_LF s') else count_LF s'
  end.

(** The methods that scroll toward the end of the content. *)
Definition moves_down (op : NavOp) : bool :=
  match op with
  | OpViewDown | OpHalfViewDown | OpLineDown _ | OpGotoBottom => true
  | OpViewUp | OpHalfViewUp | OpLineUp _ | OpGotoTop => false
  end.

(** ** Models used as examples *)

Definition fresh_window : ViewportModel := set_Height 10 zero_model.

Definition ten_lines : ViewportModel :=
  after (SetContent (numbered 1 10) (set_Height 3 zero_model)).

Definition five_lines : ViewportModel :=
  after (SetContent (numbered 1 5) (set_Height 10 zero_model)).

Definition hundred_lines : ViewportModel :=
  after (SetContent (numbered 1 100) (set_Height 10 zero_model)).

Definition two_lines : ViewportModel :=
  after (SetContent (numbered 1 2) (set_Height 1 zero_model)).

Definition far_down : ViewportModel :=
  set_YOffset 50 (set_Height 4 zero_model).

Definition accelerated_window : ViewportModel :=
  mkViewportModel 80 4 0 0 true (split_lines (numbered 1 9)).

(** * Properties *)

(** ** Machine arithmetic *)

Lemma wrap_id (z : Z) : Int.in_range z -> Int.wrap z = z.
Proof.
  unfold Int.in_range, Int.wrap, Int.min_int, Int.max_int, Int.modulus,
    Int.half_modulus.
  intros Hz. rewrite Z.mod_small; lia.
Qed.

Lemma wrap_in_range (z : Z) : Int.in_range (Int.wrap z).
Proof.
  unfold Int.in_range, Int.wrap, Int.min_int, Int.max_int, Int.modulus,
    Int.half_modulus.
  pose proof (Z.mod_pos_bound (z + 2 ^ 63) (2 ^ 64) ltac:(lia)). lia.
Qed.

Lemma wrap_congr (a b : Z) :
  (a - b) mod Int.modulus = 0 -> Int.wrap a = Int.wrap b.
Proof.
  unfold Int.wrap, Int.modulus, Int.half_modulus. intros H.
  f_equal.
  apply Z.mod_divide in H; [| lia]. destruct H as [k Hk].
  replace (a + 2 ^ 63) with (b + 2 ^ 63 + k * 2 ^ 64) by lia.
  apply Z.mod_add. lia.
Qed.

Lemma wrap_wrap_l (a b : Z) : Int.wrap (Int.wrap a + b) = Int.wrap (a + b).
Proof.
  apply wrap_congr.
  unfold Int.wrap, Int.modulus, Int.half_modulus.
  pose proof (Z.div_mod (a + 2 ^ 63) (2 ^ 64) ltac:(lia)) as E.
  replace ((a + 2 ^ 63) mod 2 ^ 64 - 2 ^ 63 + b - (a + b))
    with (- ((a + 2 ^ 63) / 2 ^ 64) * 2 ^ 64) by lia.
  apply Z.mod_mul. lia.
Qed.

(** Subtracting what was added gives the operand back, overflow or not. *)
Lemma sub_add_cancel (a n : Z) :
  Int.in_range a -> Int.sub (Int.add a n) n = a.
Proof.
  intros Ha. unfold Int.sub, Int.add.
  replace (Int.wrap (a + n) - n) with (Int.wrap (a + n) + - n) by lia.
  rewrite wrap_wrap_l. replace (a + n + - n) with a by lia.
  now apply wrap_id.
Qed.

Lemma min_spec (a b : Z) : min a b = Z.min a b.
Proof. unfold min. destruct (Z.ltb_spec a b); lia. Qed.

Lemma max_spec (a b : Z) : max a b = Z.max a b.
Proof. unfold max. destruct (a >? b) eqn:E; lia. Qed.

Lemma clamp_spec (v low high : Z) : clamp v low high = Z.min high (Z.max low v).
Proof. unfold clamp. now rewrite min_spec, max_spec. Qed.

Lemma len_nonneg {A : Type} (l : list A) : 0 <= len l.
Proof. unfold len. lia. Qed.

Lemma slice_ok {A : Type} (l : list A) (lo hi : Z) :
  0 <= lo <= hi -> hi <= len l ->
  slice l lo hi = Ok (firstn (Z.to_nat (hi - lo)) (skipn (Z.to_nat lo) l)).
Proof.
  intros H1 H2. unfold slice.
  destruct ((0 <=? lo) && (lo <=? hi) && (hi <=? len l)) eqn:E; [reflexivity | lia].
Qed.

Lemma half_height (h : Z) : 0 <= h -> Int.in_range h -> Int.div h 2 = h / 2.
Proof.
  intros H0 Hr. unfold Int.div. rewrite Z.quot_div_nonneg by lia.
  apply wrap_id. unfold Int.in_range, Int.min_int, Int.max_int, Int.half_modulus in *.
  pose proof (Z.div_le_upper_bound h 2 h ltac:(lia) ltac:(lia)).
  pose proof (Z.div_pos h 2 H0 ltac:(lia)). lia.
Qed.

(** Removes the wrap-arounds whose operand is seen to be in range. *)
Ltac int_range :=
  cbv [Int.in_range Int.min_int Int.max_int Int.half_modulus] in *; lia.

Ltac unwrap :=
  unfold Int.add, Int.sub in *;
  repeat match goal with
         | |- context [Int.wrap ?z] =>
             rewrite (wrap_id z) by int_range
         | H : context [Int.wrap ?z] |- _ =>
             rewrite (wrap_id z) in H by int_range
         end.

Ltac to_Z :=
  rewrite ?min_spec, ?max_spec, ?clamp_spec in *.

(** Case analysis on the conditions of the method under study. *)
Ltac cases :=
  repeat match goal with
         | |- context [if ?b then _ else _] =>
             lazymatch type of b with bool => destruct b eqn:? end
         end.

Ltac fields :=
  cbn [fst snd YOffset Height Width YPosition HighPerformanceRendering lines
       set_YOffset set_lines set_Height] in *.

Ltac arith := fields; to_Z; unwrap; fields.

Ltac run :=
  unfold run_call, run_op, SetContent, ViewDown, ViewUp, HalfViewDown, HalfViewUp,
    LineDown, LineUp, GotoTop, GotoBottom, bind, get, put_YOffset, put_lines,
    lift, ret, after, result, visibleLines, AtTop, AtBottom, PastBottom,
    bottom_offset in *;
  cbn [fst snd YOffset Height Width YPosition HighPerformanceRendering lines
       set_YOffset set_lines set_Height] in *.

(** ** The line count of a content *)

Lemma split_lines_length (s : string) :
  (1 <= List.length (split_lines s) <= S (String.length s))%nat.
Proof.
  induction s as [| c s IH]; cbn [split_lines String.length List.length].
  - lia.
  - destruct (Ascii.eqb c LF).
    + cbn [List.length]. lia.
    + destruct (split_lines s) as [| h t]; cbn [List.length] in *; lia.
Qed.

Lemma normalize_length (s : string) :
  (String.length (normalize s) <= String.length s)%nat.
Proof.
  enough (H : (String.length (normalize s) <= String.length s)%nat
              /\ forall c, (String.length (normalize (String c s))
                            <= S (String.length s))%nat) by apply H.
  induction s as [| c' s [IH1 IH2]].
  - split; [| intros c]; cbn; lia.
  - split; [apply IH2 |]. intros c.
    change (normalize (String c (String c' s)))
      with (if Ascii.eqb c CR && Ascii.eqb c' LF
            then String LF (normalize s)
            else String c (normalize (String c' s))).
    destruct (Ascii.eqb c CR && Ascii.eqb c' LF);
      cbn [String.length]; specialize (IH2 c'); lia.
Qed.

Lemma content_lines (s : string) :
  1 <= len (split_lines (normalize s)) <= Z.of_nat (String.length s) + 1.
Proof.
  unfold len.
  pose proof (split_lines_length (normalize s)).
  pose proof (normalize_length s). lia.
Qed.

(** ** Single navigation steps from a settled model *)

Section Steps.

Variable m : ViewportModel.
Hypothesis Hm : settled m.

Ltac prepare :=
  destruct Hm as [[HrH [HrY HrL]] [HH HY]];
  pose proof (len_nonneg (lines m)) as HL0;
  pose proof (half_height (Height m) HH HrH) as Hhalf;
  pose proof (Z.div_pos (Height m) 2 HH ltac:(lia)) as Hh0;
  pose proof (Z.div_le_upper_bound (Height m) 2 (Height m) ltac:(lia) ltac:(lia)) as Hh1;
  unfold settled, well_formed, bounded; run; rewrite ?Hhalf in *.

Ltac finish :=
  cbn [fst snd YOffset Height lines set_YOffset set_lines set_Height] in *;
  to_Z; unwrap;
  try (rewrite slice_ok by lia);
  cbn [fst snd YOffset Height lines set_YOffset set_lines set_Height] in *;
  intros; repeat split; try int_range.

Ltac step :=
  prepare; cases;
  (do 2 eexists; split; [finish; reflexivity | finish]).

Lemma ViewDown_step :
  exists d m', ViewDown m = (Ok d, m') /\ settled m' /\ (bounded m \/ AtBottom m = false -> bounded m').
Proof. step. Qed.

Lemma ViewUp_step :
  exists d m', ViewUp m = (Ok d, m') /\ settled m' /\ (bounded m -> bounded m').
Proof. step. Qed.

Lemma HalfViewDown_step :
  exists d m', HalfViewDown m = (Ok d, m') /\ settled m' /\ (bounded m \/ AtBottom m = false -> bounded m').
Proof. step. Qed.

Lemma HalfViewUp_step :
  exists d m', HalfViewUp m = (Ok d, m') /\ settled m' /\ (bounded m -> bounded m').
Proof. step. Qed.

Lemma LineDown_step (n : Z) :
  0 <= n <= Int.max_int ->
  exists d m',
    LineDown n m = (Ok d, m') /\ settled m'
    /\ (bounded m \/ (AtBottom m = false /\ n <> 0) -> bounded m').
Proof. intros Hn. step. Qed.

Lemma LineUp_step (n : Z) :
  0 <= n <= Int.max_int ->
  exists d m', LineUp n m = (Ok d, m') /\ settled m' /\ (bounded m -> bounded m').
Proof. intros Hn. step. Qed.

Lemma GotoTop_step :
  exists d m', GotoTop m = (Ok d, m') /\ settled m' /\ YOffset m' = 0.
Proof. step. Qed.

Lemma GotoBottom_step :
  exists d m',
    GotoBottom m = (Ok d, m') /\ settled m' /\ bounded m'
    /\ YOffset m' = Z.max (len (lines m) - 1 - Height m) 0.
Proof. step. Qed.

Lemma SetContent_step (s : string) :
  Z.of_nat (String.length s) < Int.max_int ->
  exists m',
    SetContent s m = (Ok tt, m') /\ settled m'
    /\ lines m' = split_lines (normalize s).
Proof.
  intros Hs. pose proof (content_lines s) as HL.
  prepare.
  remember (split_lines (normalize s)) as L eqn:EL in *. clear EL.
  cases; (eexists; split; [finish; reflexivity | finish]).
Qed.

Lemma Resize_step (h : Z) :
  0 <= h <= Int.max_int -> settled (set_Height h m).
Proof. intros Hh. prepare. finish. Qed.

End Steps.

Lemma run_op_step (op : NavOp) (m : ViewportModel) :
  settled m -> valid_call (Nav op) ->
  exists d m',
    run_op op m = (Ok d, m') /\ settled m' /\ (bounded m -> bounded m').
Proof.
  intros Hm Hv.
  destruct op; cbn [run_op valid_call] in *.
  - destruct (ViewDown_step m Hm) as (d & m' & E & S & B); eauto 8.
  - destruct (ViewUp_step m Hm) as (d & m' & E & S & B); eauto 8.
  - destruct (HalfViewDown_step m Hm) as (d & m' & E & S & B); eauto 8.
  - destruct (HalfViewUp_step m Hm) as (d & m' & E & S & B); eauto 8.
  - destruct (LineDown_step m Hm n Hv) as (d & m' & E & S & B); eauto 8.
  - destruct (LineUp_step m Hm n Hv) as (d & m' & E & S & B); eauto 8.
  - destruct (GotoTop_step m Hm) as (d & m' & E & S & B).
    exists d, m'. repeat split; try apply S; try assumption.
    intros _. unfold bounded. lia.
  - destruct (GotoBottom_step m Hm) as (d & m' & E & S & B & _); eauto 8.
Qed.

Lemma run_call_step (c : Call) (m : ViewportModel) :
  settled m -> valid_call c ->
  exists m',
    run_call c m = (Ok tt, m') /\ settled m'
    /\ (is_nav c = true -> bounded m -> bounded m').
Proof.
  intros Hm Hv. destruct c as [op | s | h].
  - destruct (run_op_step op m Hm Hv) as (d & m' & E & S & B).
    exists m'. unfold run_call, bind, ret. rewrite E. auto.
  - destruct (SetContent_step m Hm s Hv) as (m' & E & S & _).
    exists m'. cbn [run_call is_nav]. repeat split; try apply S; try assumption.
    discriminate.
  - exists (set_Height h m). cbn [run_call is_nav].
    split; [reflexivity |]. split; [now apply Resize_step | discriminate].
Qed.

(** ** The offset stays within its bounds *)

(** The zero value is settled, and so is every model a caller builds from
    it by the calls below. *)
Lemma zero_model_settled : settled zero_model /\ bounded zero_model.
Proof. unfold settled, well_formed, bounded. cbn. int_range. Qed.

(** C1, as amended.  From a settled model (height >= 0 and
    0 <= offset <= max(0, len(lines)-1), as the zero value has it), every
    sequence of navigation calls with non-negative line counts, of content
    replacements and of assignments of a non-negative height runs to its
    end without a panic and leaves 0 <= offset after every call; and when
    the sequence holds navigation calls only and starts with
    offset <= max(0, len(lines)-1-height), that bound holds after every
    call of it. *)
Theorem offset_within_bounds (cs : list Call) (m : ViewportModel) :
  settled m -> Forall valid_call cs ->
  completes cs m = true
  /\ List.length (trace cs m) = List.length cs
  /\ Forall (fun m' => 0 <= YOffset m') (trace cs m)
  /\ (forallb is_nav cs = true -> bounded m -> Forall bounded (trace cs m)).
Proof.
  intros Hm Hcs. revert m Hm.
  induction Hcs as [| c cs Hc Hcs IH]; intros m Hm.
  - cbn. auto.
  - destruct (run_call_step c m Hm Hc) as (m' & E & S & B).
    destruct (IH m' S) as (IH1 & IH2 & IH3 & IH4).
    cbn [completes trace forallb List.length]. rewrite E.
    repeat split.
    + exact IH1.
    + cbn [List.length]. now rewrite IH2.
    + constructor; [apply S | exact IH3].
    + intros Hnav Hb. apply andb_true_iff in Hnav as [Hn1 Hn2].
      constructor; auto.
Qed.

Lemma offset_within_bounds_witness :
  (let cs := [Nav OpViewDown; Nav (OpLineUp 2); Resize 8; Nav OpHalfViewDown;
              Content (numbered 1 4); Nav OpGotoBottom; Nav (OpLineDown 1)] in
   completes cs ten_lines = true
   /\ List.length (trace cs ten_lines) = List.length cs
   /\ Forall (fun m' => 0 <= YOffset m') (trace cs ten_lines))
  /\ (let cs := [Nav OpViewDown; Nav (OpLineUp 2); Nav OpHalfViewDown;
                 Nav (OpLineDown 7); Nav OpViewUp; Nav OpGotoBottom;
                 Nav OpHalfViewUp; Nav OpGotoTop] in
      completes cs ten_lines = true
      /\ Forall bounded (trace cs ten_lines)).
Proof.
  assert (Hs : settled ten_lines).
  { unfold settled, well_formed, Int.in_range. vm_compute.
    repeat split; discriminate. }
  assert (Hb : bounded ten_lines).
  { unfold bounded. vm_compute. discriminate. }
  split; cbv zeta;
    match goal with
    | |- completes ?cs _ = _ /\ _ =>
        assert (Hv : Forall valid_call cs)
          by (repeat constructor; vm_compute; discriminate);
        destruct (offset_within_bounds cs ten_lines Hs Hv)
          as (H1 & H2 & H3 & H4)
    end.
  - exact (conj H1 (conj H2 H3)).
  - exact (conj H1 (H4 eq_refl Hb)).
Defined.

(** C1, as stated, fails: a negative line count moves the offset below 0.
    Ten lines, height 3, offset 0; [LineDown(-5)] returns an empty diff and
    leaves offset -5. *)
Lemma negative_count_breaks_lower_bound :
  settled ten_lines /\ bounded ten_lines
  /\ LineDown (-5) ten_lines = (Ok [], set_YOffset (-5) ten_lines)
  /\ ~ (0 <= YOffset (after (run_op (OpLineDown (-5)) ten_lines))).
Proof.
  unfold settled, well_formed, bounded, Int.in_range.
  vm_compute. repeat split; try discriminate. intros H. now apply H.
Qed.

(** A negative count of [LineUp] moves the offset past the bottom bound. *)
Example negative_count_breaks_upper_bound :
  YOffset (after (LineUp (-20) (after (LineDown 1 ten_lines)))) = 21.
Proof. reflexivity. Qed.

(** A past-bottom offset is not re-clamped by the next downward call: at
    offset 6 of ten lines the height grows from 3 to 8, the bound becomes
    1, and [ViewDown] (like [HalfViewDown] and [LineDown]) is a no-op
    there. *)
Example past_bottom_is_not_reclamped :
  let m := set_Height 8 (after (GotoBottom ten_lines)) in
  YOffset m = 6 /\ Z.max 0 (len (lines m) - 1 - Height m) = 1
  /\ ViewDown m = (Ok [], m)
  /\ HalfViewDown m = (Ok [], m)
  /\ LineDown 1 m = (Ok [], m)
  /\ YOffset (after (LineUp 1 m)) = 5.
Proof. vm_compute. repeat split; reflexivity. Qed.

(** With a negative height [ViewDown] moves the offset below 0. *)
Example negative_height_breaks_lower_bound :
  YOffset (after (ViewDown (set_Height (-4) ten_lines))) = -4.
Proof. reflexivity. Qed.

(** ** Navigation writes the offset only *)

Lemma set_YOffset_same (m : ViewportModel) : set_YOffset (YOffset m) m = m.
Proof. now destruct m. Qed.

Lemma run_op_writes_offset (op : NavOp) (m : ViewportModel) :
  after (run_op op m) = set_YOffset (YOffset (after (run_op op m))) m.
Proof.
  destruct op; run; unfold slice; cases;
    cbn [snd YOffset set_YOffset]; try reflexivity;
    symmetry; apply set_YOffset_same.
Qed.

(** C10.  Every navigation call, whatever the model and the argument and
    whether it returns or panics, leaves the lines, [Width], [Height],
    [YPosition] and [HighPerformanceRendering] as they were: the model
    after the call is the model before it with a new [YOffset]. *)
Theorem navigation_frame (op : NavOp) (m : ViewportModel) :
  let m' := after (run_op op m) in
  lines m' = lines m /\ Width m' = Width m /\ Height m' = Height m
  /\ YPosition m' = YPosition m
  /\ HighPerformanceRendering m' = HighPerformanceRendering m
  /\ m' = set_YOffset (YOffset m') m.
Proof.
  cbv zeta. rewrite (run_op_writes_offset op m).
  cbn [lines Width Height YPosition HighPerformanceRendering YOffset set_YOffset].
  repeat split; reflexivity.
Qed.

(** ** No-ops at the boundaries *)

(** C7.  [ViewUp] at the top and [ViewDown] at the bottom return an empty
    diff and leave the model, hence the offset, unchanged. *)
Theorem page_noop_at_boundary (m : ViewportModel) :
  (AtTop m = true -> ViewUp m = (Ok [], m))
  /\ (AtBottom m = true -> ViewDown m = (Ok [], m)).
Proof.
  split; intros H; unfold ViewUp, ViewDown, bind, get, ret; now rewrite H.
Qed.

Lemma page_noop_at_boundary_witness :
  (AtTop five_lines = true /\ ViewUp five_lines = (Ok [], five_lines))
  /\ (AtBottom five_lines = true /\ ViewDown five_lines = (Ok [], five_lines)).
Proof.
  assert (Ht : AtTop five_lines = true) by reflexivity.
  assert (Hb : AtBottom five_lines = true) by reflexivity.
  destruct (page_noop_at_boundary five_lines) as [Hup Hdown].
  split; split; auto.
Defined.

(** ** Content replacement *)

Lemma GotoBottom_after (m : ViewportModel) :
  after (GotoBottom m) = set_YOffset (max (bottom_offset m) 0) m.
Proof.
  unfold GotoBottom, bind, get, put_YOffset, lift, ret, after.
  cbn [lines set_YOffset].
  destruct (len (lines m) >? 0); [| reflexivity].
  destruct (slice _ _ _); reflexivity.
Qed.

Lemma SetContent_snap (s : string) (m : ViewportModel) :
  (YOffset m >? Int.sub (len (split_lines (normalize s))) 1) = true ->
  after (SetContent s m)
  = after (GotoBottom (set_lines (split_lines (normalize s)) m)).
Proof.
  intros H. unfold SetContent, bind, put_lines, get, ret, after.
  cbn [lines YOffset set_lines]. rewrite H.
  destruct (GotoBottom _) as [[d |] m']; reflexivity.
Qed.

(** C5.  When the offset exceeds [len(lines)-1] for the new lines,
    [SetContent] leaves the model that [GotoBottom] leaves on the new
    lines: the offset is [max(len(lines)-1-height, 0)] and [AtBottom] is
    true.  This holds for every prior model and content; the call returns
    (rather than panics in the slice expression of [GotoBottom]) whenever
    the height is not negative. *)
Theorem SetContent_snaps_to_bottom (s : string) (m : ViewportModel) :
  let m' := after (SetContent s m) in
  YOffset m > Int.sub (len (split_lines (normalize s))) 1 ->
  lines m' = split_lines (normalize s)
  /\ m' = after (GotoBottom (set_lines (split_lines (normalize s)) m))
  /\ YOffset m' = max (Int.sub (Int.sub (len (lines m')) 1) (Height m')) 0
  /\ AtBottom m' = true
  /\ (well_formed m -> 0 <= Height m ->
      Z.of_nat (String.length s) < Int.max_int ->
      result (SetContent s m) = Ok tt).
Proof.
  cbv zeta. intros H.
  assert (H' : (YOffset m >? Int.sub (len (split_lines (normalize s))) 1) = true)
    by lia.
  rewrite (SetContent_snap s m H'), GotoBottom_after.
  unfold AtBottom, bottom_offset.
  cbn [lines Height YOffset set_YOffset set_lines].
  repeat split.
  - rewrite max_spec. lia.
  - intros [HrH [HrY HrL]] HH Hs.
    pose proof (content_lines s) as HL.
    run. rewrite H'.
    remember (split_lines (normalize s)) as L eqn:EL in *. clear EL.
    cases; [| reflexivity].
    arith. rewrite slice_ok by lia. reflexivity.
Qed.

Lemma SetContent_snaps_to_bottom_witness :
  let s := numbered 1 20 in
  let m' := after (SetContent s far_down) in
  YOffset far_down > Int.sub (len (split_lines (normalize s))) 1
  /\ lines m' = split_lines (normalize s)
  /\ m' = after (GotoBottom (set_lines (split_lines (normalize s)) far_down))
  /\ YOffset m' = max (Int.sub (Int.sub (len (lines m')) 1) (Height m')) 0
  /\ AtBottom m' = true
  /\ result (SetContent s far_down) = Ok tt.
Proof.
  cbv zeta.
  assert (Hoff : YOffset far_down
                 > Int.sub (len (split_lines (normalize (numbered 1 20)))) 1)
    by (vm_compute; reflexivity).
  destruct (SetContent_snaps_to_bottom (numbered 1 20) far_down Hoff)
    as (H1 & H2 & H3 & H4 & H5).
  refine (conj Hoff (conj H1 (conj H2 (conj H3 (conj H4 (H5 _ _ _)))))).
  - unfold well_formed, Int.in_range. vm_compute. repeat split; discriminate.
  - vm_compute. discriminate.
  - vm_compute. reflexivity.
Defined.

(** The panic that a negative height brings about in that call. *)
Example SetContent_negative_height_panics :
  SetContent "a" (set_YOffset 5 (set_Height (-1) zero_model))
  = (Panic, mkViewportModel 0 (-1) 1 0 false ["a"%string]).
Proof. reflexivity. Qed.

(** C3, as amended.  After [SetContent] with the empty string the engine
    holds exactly one line, the empty one ([strings.Split] never returns
    an empty slice); for a height that is not negative the call returns
    without a panic, and [visibleLines] then returns that one empty line
    when offset + height >= 1 and the empty sequence otherwise. *)
Theorem SetContent_empty_string (m : ViewportModel) :
  let m' := after (SetContent EmptyString m) in
  lines m' = [EmptyString] /\ len (lines m') = 1
  /\ (well_formed m -> 0 <= Height m ->
      result (SetContent EmptyString m) = Ok tt
      /\ visibleLines m'
         = Ok (if 1 <=? YOffset m' + Height m' then [EmptyString] else [])).
Proof.
  cbv zeta.
  assert (Hl : lines (after (SetContent EmptyString m)) = [EmptyString]).
  { destruct (YOffset m >? Int.sub (len (split_lines (normalize EmptyString))) 1)
      eqn:E.
    - rewrite (SetContent_snap _ m E), GotoBottom_after. reflexivity.
    - unfold SetContent, bind, put_lines, get, ret, after.
      cbn [lines YOffset set_lines]. rewrite E. reflexivity. }
  split; [exact Hl |]. split; [now rewrite Hl |].
  intros [HrH [HrY HrL]] HH.
  run. cbn [normalize split_lines] in *.
  change (@len string [EmptyString]) with 1 in *.
  unfold slice.
  cases; arith; change (@len string [EmptyString]) with 1 in *.
  all: cases; arith.
  all: try (exfalso; lia).
  all: try (split; [reflexivity |]).
  all: match goal with
       | |- Ok (firstn (Z.to_nat (?b - ?t)) (skipn (Z.to_nat ?t) _)) = Ok [_] =>
           assert (Ht : t = 0) by lia; assert (Hb : b = 1) by lia;
           rewrite Hb, Ht; reflexivity
       | |- Ok (firstn (Z.to_nat (?b - ?t)) (skipn (Z.to_nat ?t) _)) = Ok [] =>
           assert (Ht : t = 0) by lia; assert (Hb : b = 0) by lia;
           rewrite Hb, Ht; reflexivity
       end.
Qed.

Lemma SetContent_empty_string_witness :
  let m' := after (SetContent EmptyString fresh_window) in
  lines m' = [EmptyString] /\ len (lines m') = 1
  /\ result (SetContent EmptyString fresh_window) = Ok tt
  /\ visibleLines m'
     = Ok (if 1 <=? YOffset m' + Height m' then [EmptyString] else []).
Proof.
  cbv zeta.
  destruct (SetContent_empty_string fresh_window) as (H1 & H2 & H3).
  refine (conj H1 (conj H2 (H3 _ _))).
  - unfold well_formed, Int.in_range. vm_compute. repeat split; discriminate.
  - vm_compute. discriminate.
Defined.

(** C3, as stated, fails: with a window of height 10 at offset 0 the empty
    content leaves one line, and that line is visible. *)
Lemma empty_content_is_one_line :
  let m' := after (SetContent EmptyString fresh_window) in
  well_formed fresh_window /\ 0 <= Height fresh_window
  /\ len (lines m') = 1 /\ visibleLines m' = Ok [EmptyString]
  /\ ~ (len (lines m') = 0 /\ visibleLines m' = Ok []).
Proof.
  unfold well_formed, Int.in_range. vm_compute.
  repeat split; try discriminate. intros [H _]. discriminate H.
Qed.

(** ** Rendering *)

Lemma visibleLines_ok (m : ViewportModel) :
  well_formed m ->
  len (lines m) = 0 \/ YOffset m <= len (lines m) ->
  exists vis, visibleLines m = Ok vis /\ len vis <= len (lines m).
Proof.
  intros [HrH [HrY HrL]] Hoff.
  pose proof (len_nonneg (lines m)) as HL0.
  pose proof (wrap_in_range (YOffset m + Height m)) as Hw.
  unfold visibleLines, Int.add. cases; [| exists []; split; [reflexivity | cbn; lia]].
  to_Z. rewrite slice_ok by lia.
  eexists. split; [reflexivity |].
  unfold len. rewrite length_firstn, length_skipn. lia.
Qed.

(** C4, as amended.  In accelerated mode with height >= 1, [View] returns
    exactly height-1 newlines.  In standard mode, for every height (zero
    and negative ones included) and every offset that does not exceed
    [len(lines)], [View] returns the visible lines joined by newlines,
    followed by height - len(visible) newlines when fewer than height
    lines are visible. *)
Theorem View_renders (m : ViewportModel) :
  well_formed m ->
  (HighPerformanceRendering m = true -> 1 <= Height m ->
   View m = Ok (repeat_string newline (Z.to_nat (Height m - 1))))
  /\ (HighPerformanceRendering m = false ->
      len (lines m) = 0 \/ YOffset m <= len (lines m) ->
      exists vis,
        visibleLines m = Ok vis
        /\ View m
           = Ok (String.append (join vis)
                   (if len vis <? Height m
                    then repeat_string newline (Z.to_nat (Height m - len vis))
                    else EmptyString))).
Proof.
  intros Hwf. split.
  - intros Hhp Hh. destruct Hwf as [HrH _].
    unfold View, Repeat. rewrite Hhp. unwrap. cases; [lia | reflexivity].
  - intros Hhp Hoff.
    destruct (visibleLines_ok m Hwf Hoff) as (vis & Ev & Hlen).
    destruct Hwf as [HrH [HrY HrL]].
    pose proof (len_nonneg vis) as Hv0.
    exists vis. split; [exact Ev |].
    unfold View, Repeat. rewrite Hhp, Ev.
    destruct (len vis <? Height m) eqn:E; [| reflexivity].
    unwrap. cases; [lia | reflexivity].
Qed.

Lemma View_renders_witness :
  View accelerated_window
  = Ok (repeat_string newline (Z.to_nat (Height accelerated_window - 1)))
  /\ exists vis,
      visibleLines five_lines = Ok vis
      /\ View five_lines
         = Ok (String.append (join vis)
                 (if len vis <? Height five_lines
                  then repeat_string newline
                         (Z.to_nat (Height five_lines - len vis))
                  else EmptyString)).
Proof.
  split.
  - refine (proj1 (View_renders accelerated_window _) eq_refl _).
    + unfold well_formed, Int.in_range. vm_compute. repeat split; discriminate.
    + vm_compute. discriminate.
  - refine (proj2 (View_renders five_lines _) eq_refl _).
    + unfold well_formed, Int.in_range. vm_compute. repeat split; discriminate.
    + right. vm_compute. discriminate.
Defined.

(** C4, as stated, fails: in accelerated mode with height 0 the count
    passed to [strings.Repeat] is -1, and [View] panics. *)
Lemma View_accelerated_zero_height_panics :
  let m := mkViewportModel 80 0 0 0 true (split_lines (numbered 1 9)) in
  well_formed m /\ View m = Panic /\ ~ (exists out, View m = Ok out).
Proof.
  unfold well_formed, Int.in_range. vm_compute.
  repeat split; try discriminate. intros [out H]. discriminate H.
Qed.

(** In standard mode an offset beyond the lines makes the slice expression
    of [visibleLines] panic. *)
Example View_offset_beyond_lines_panics :
  View (mkViewportModel 80 1 5 0 false ["a"%string]) = Panic.
Proof. reflexivity. Qed.

(** The second scenario of the rendering: five lines in a window of height
    10 are all visible and are followed by five newlines. *)
Example View_five_lines :
  AtBottom five_lines = true
  /\ visibleLines five_lines = Ok (lines five_lines)
  /\ View five_lines
     = Ok (join (lines five_lines) ++ repeat_string newline 5)%string.
Proof. vm_compute. repeat split; reflexivity. Qed.

(** ** The last line *)

(** C9.  With [len(lines) > height >= 0] and an offset in the clamped
    range [0 .. len(lines)-1-height], [visibleLines] returns exactly
    [height] lines, the ones at the indices offset .. offset+height-1 of
    the content, and each of these indices is at most [len(lines)-2]: the
    last line of the content is not among them. *)
Theorem last_line_never_visible (m : ViewportModel) :
  well_formed m ->
  0 <= Height m < len (lines m) ->
  0 <= YOffset m <= len (lines m) - 1 - Height m ->
  exists vis,
    visibleLines m = Ok vis
    /\ len vis = Height m
    /\ forall k : nat,
        (k < List.length vis)%nat ->
        nth_error vis k = nth_error (lines m) (Z.to_nat (YOffset m) + k)
        /\ YOffset m + Z.of_nat k <= len (lines m) - 2.
Proof.
  intros [HrH [HrY HrL]] HH HY.
  unfold visibleLines. cases; [| lia]. arith.
  assert (Et : Z.max 0 (YOffset m) = YOffset m) by lia.
  assert (Eb : Z.min (len (lines m))
                 (Z.max (Z.max 0 (YOffset m)) (YOffset m + Height m))
               = YOffset m + Height m) by lia.
  rewrite Eb, Et, slice_ok by lia.
  replace (YOffset m + Height m - YOffset m) with (Height m) by lia.
  eexists. split; [reflexivity |].
  assert (El : List.length
                 (firstn (Z.to_nat (Height m))
                    (skipn (Z.to_nat (YOffset m)) (lines m)))
               = Z.to_nat (Height m)).
  { rewrite length_firstn, length_skipn. unfold len in *. lia. }
  split; [unfold len in *; lia |].
  intros k Hk. rewrite El in Hk. split.
  - rewrite nth_error_firstn, nth_error_skipn.
    destruct (Nat.ltb_spec k (Z.to_nat (Height m))); [reflexivity | lia].
  - lia.
Qed.

Lemma last_line_never_visible_witness :
  exists vis,
    visibleLines (after (GotoBottom ten_lines)) = Ok vis
    /\ len vis = Height (after (GotoBottom ten_lines))
    /\ forall k : nat,
        (k < List.length vis)%nat ->
        nth_error vis k
        = nth_error (lines (after (GotoBottom ten_lines)))
            (Z.to_nat (YOffset (after (GotoBottom ten_lines))) + k)
        /\ YOffset (after (GotoBottom ten_lines)) + Z.of_nat k
           <= len (lines (after (GotoBottom ten_lines))) - 2.
Proof.
  apply (last_line_never_visible (after (GotoBottom ten_lines))).
  - unfold well_formed, Int.in_range. vm_compute. repeat split; discriminate.
  - vm_compute. split; [discriminate | reflexivity].
  - vm_compute. split; discriminate.
Defined.

(** At the bottom of ten lines in a window of height 3 the visible lines
    are "7", "8", "9": the line "10" is not shown. *)
Example bottom_of_ten_lines :
  GotoBottom ten_lines
  = (Ok ["7"; "8"; "9"]%string, set_YOffset 6 ten_lines)
  /\ visibleLines (set_YOffset 6 ten_lines) = Ok ["7"; "8"; "9"]%string
  /\ nth_error (lines ten_lines) 9 = Some "10"%string.
Proof. vm_compute. repeat split; reflexivity. Qed.

(** ** Paging down through a hundred lines *)

(** C6.  A hundred lines numbered "1".."100", height 10, offset 0.  The
    first [ViewDown] sets the offset to min(10, 100-1-10) = 10 and returns
    the lines of indices 10..19; nine further calls leave the offset at
    89 = 100-1-10 with [AtBottom] true; one more call returns an empty diff
    and leaves the offset at 89. *)
Theorem hundred_lines_paging :
  let m0 := hundred_lines in
  let m1 := after (ViewDown m0) in
  let m10 := after (times 9 ViewDown m1) in
  len (lines m0) = 100 /\ Height m0 = 10 /\ YOffset m0 = 0
  /\ nth_error (lines m0) 0 = Some "1"%string
  /\ nth_error (lines m0) 99 = Some "100"%string
  /\ YOffset m1 = min 10 (100 - 1 - 10) /\ YOffset m1 = 10
  /\ result (ViewDown m0) = Ok (firstn 10 (skipn 10 (lines m0)))
  /\ result (ViewDown m0)
     = Ok ["11"; "12"; "13"; "14"; "15"; "16"; "17"; "18"; "19"; "20"]%string
  /\ (exists d, result (times 9 ViewDown m1) = Ok d)
  /\ YOffset m10 = 89 /\ AtBottom m10 = true
  /\ ViewDown m10 = (Ok [], m10)
  /\ YOffset (after (ViewDown m10)) = 89.
Proof.
  cbv zeta. repeat split; try (vm_compute; reflexivity).
  eexists. vm_compute. reflexivity.
Qed.

(** The offsets along the way: the eighth of the nine further calls is
    the one that reaches 89, the ninth is already a no-op. *)
Example hundred_lines_offsets :
  map YOffset (trace (repeat (Nav OpViewDown) 11) hundred_lines)
  = [10; 20; 30; 40; 50; 60; 70; 80; 89; 89; 89].
Proof. vm_compute. reflexivity. Qed.

(** ** Down by n lines, then up by n lines *)

Lemma wrap_add_sub (a n h : Z) :
  Int.sub (Int.add (Int.add a n) h) n = Int.add a h.
Proof.
  unfold Int.sub, Int.add.
  replace (Int.wrap (Int.wrap (a + n) + h) - n)
    with (Int.wrap (Int.wrap (a + n) + h) + - n) by lia.
  rewrite wrap_wrap_l.
  replace (Int.wrap (a + n) + h + - n) with (Int.wrap (a + n) + (h - n)) by lia.
  rewrite wrap_wrap_l. f_equal. lia.
Qed.

Lemma LineDown_unclamped_run (n : Z) (m : ViewportModel) :
  well_formed m -> 0 < n -> LineDown_unclamped n m ->
  exists d, LineDown n m = (Ok d, set_YOffset (Int.add (YOffset m) n) m).
Proof.
  intros [HrH [HrY HrL]] Hn (Hb & Hcap & Hclamp).
  pose proof (len_nonneg (lines m)) as HL0.
  unfold LineDown, bind, get, put_YOffset, lift, ret.
  rewrite Hb. destruct (n =? 0) eqn:En; [lia |].
  cbn [orb lines YOffset Height set_YOffset].
  rewrite (min_spec n), Z.min_l by exact Hcap.
  rewrite (min_spec (Int.add (YOffset m) n)), Z.min_l by exact Hclamp.
  destruct (len (lines m) >? 0) eqn:EL; [| eexists; reflexivity].
  rewrite wrap_add_sub.
  pose proof (wrap_in_range (YOffset m + Height m)) as Hx.
  fold (Int.add (YOffset m) (Height m)) in Hx.
  assert (Hedge : Int.add (YOffset m) (Height m) <= len (lines m) - 1).
  { destruct (Z_le_gt_dec (Int.add (YOffset m) (Height m)) (len (lines m) - 1))
      as [Hle | Hgt]; [exact Hle | exfalso].
    revert Hcap. unfold Int.sub at 2.
    rewrite (wrap_id (len (lines m) - 1)) by int_range.
    unfold Int.sub. rewrite wrap_id by int_range. lia. }
  unfold Int.sub. rewrite (wrap_id (len (lines m) - 1)) by int_range.
  to_Z. rewrite slice_ok by lia. eexists. reflexivity.
Qed.

Lemma LineUp_unclamped_after (n : Z) (m : ViewportModel) :
  0 < n -> LineUp_unclamped n m ->
  after (LineUp n m) = set_YOffset (Int.sub (YOffset m) n) m.
Proof.
  intros Hn (Ht & Hcap & Hclamp).
  unfold LineUp, bind, get, put_YOffset, lift, ret, after.
  rewrite Ht. destruct (n =? 0) eqn:En; [lia |].
  cbn [orb lines YOffset Height set_YOffset].
  rewrite (min_spec n), Z.min_l by exact Hcap.
  rewrite (max_spec (Int.sub (YOffset m) n)), Z.max_l by exact Hclamp.
  destruct (len (lines m) >? 0); [| reflexivity].
  destruct (slice _ _ _); reflexivity.
Qed.

(** C8.  For n > 0, when [LineDown(n)] triggers neither its cap nor its
    bottom clamp and the following [LineUp(n)] triggers neither its cap
    nor its top clamp, [LineDown(n)] returns and the two calls in a row
    leave the offset, and with it the whole model, as it was. *)
Theorem LineDown_LineUp_restores (n : Z) (m : ViewportModel) :
  well_formed m -> Int.in_range n -> 0 < n ->
  LineDown_unclamped n m ->
  LineUp_unclamped n (after (LineDown n m)) ->
  (exists d, result (LineDown n m) = Ok d)
  /\ YOffset (after ((LineDown n ;;; LineUp n) m)) = YOffset m
  /\ after ((LineDown n ;;; LineUp n) m) = m.
Proof.
  intros Hwf Hrn Hn Hdown Hup.
  destruct (LineDown_unclamped_run n m Hwf Hn Hdown) as [d Ed].
  rewrite Ed in Hup. cbn [after snd] in Hup.
  pose proof (LineUp_unclamped_after n _ Hn Hup) as Eu.
  cbn [YOffset set_YOffset] in Eu.
  rewrite sub_add_cancel in Eu by apply Hwf.
  assert (E : after ((LineDown n ;;; LineUp n) m) = m).
  { unfold bind. rewrite Ed. fold (after (LineUp n (set_YOffset (Int.add (YOffset m) n) m))).
    rewrite Eu. now destruct m. }
  split; [exists d; now rewrite Ed |].
  split; [now rewrite E | exact E].
Qed.

Lemma LineDown_LineUp_restores_witness :
  (exists d, result (LineDown 4 ten_lines) = Ok d)
  /\ YOffset (after ((LineDown 4 ;;; LineUp 4) ten_lines)) = YOffset ten_lines
  /\ after ((LineDown 4 ;;; LineUp 4) ten_lines) = ten_lines.
Proof.
  apply (LineDown_LineUp_restores 4 ten_lines).
  - unfold well_formed, Int.in_range. vm_compute. repeat split; discriminate.
  - unfold Int.in_range. vm_compute. split; discriminate.
  - reflexivity.
  - unfold LineDown_unclamped. vm_compute. repeat split; discriminate.
  - unfold LineUp_unclamped. vm_compute. repeat split; discriminate.
Defined.

(** Past the cap the offset is not restored: from offset 4 of ten lines
    at height 3, five lines down are capped to two, five lines up then
    lead to offset 1. *)
Example LineDown_LineUp_capped :
  YOffset (after ((LineDown 4 ;;; LineDown 5 ;;; LineUp 5) ten_lines)) = 1.
Proof. reflexivity. Qed.

(** ** Scroll percentage *)

(** When all of the content fits, the percentage is exactly 1.0. *)
Lemma ScrollPercent_fits (m : ViewportModel) :
  Height m >= len (lines m) ->
  ScrollPercent m = F64.one
  /\ F64.one = S754_finite false 4503599627370496 (-52)
  /\ F64.in_unit_interval (ScrollPercent m) = true.
Proof.
  intros H. unfold ScrollPercent.
  destruct (Height m >=? len (lines m)) eqn:E; [| lia].
  repeat split; reflexivity.
Qed.

(** C2 on the code.  Two lines in a window of height 1, at offset 0 (the
    model a caller obtains from the zero value by setting the height and
    the content): the height is below [len(lines)], so the special case
    does not apply; the divisor [t - h] is (2-1) - 1 = 0, the quotient
    0/0 is NaN, [math.Min] and [math.Max] pass it on, and the result is
    NaN, which is not within [0.0, 1.0]. *)
Theorem ScrollPercent_divides_by_zero :
  let m := two_lines in
  len (lines m) = 2 /\ Height m = 1 /\ YOffset m = 0
  /\ settled m /\ bounded m
  /\ (Height m >=? len (lines m)) = false
  /\ F64.sub (F64.of_int (Int.sub (len (lines m)) 1)) (F64.of_int (Height m))
     = S754_zero false
  /\ ScrollPercent m = S754_nan
  /\ F64.in_unit_interval (ScrollPercent m) = false.
Proof.
  unfold settled, well_formed, bounded, Int.in_range.
  vm_compute. repeat split; discriminate.
Qed.

(** Elsewhere the clamping works: half way down a hundred lines the
    percentage is within the unit interval, and it is 1.0 at the bottom. *)
Example ScrollPercent_hundred_lines :
  F64.in_unit_interval (ScrollPercent (after (times 4 ViewDown hundred_lines)))
  = true
  /\ ScrollPercent (after (GotoBottom hundred_lines)) = F64.one.
Proof. vm_compute. split; reflexivity. Qed.

(** * Further properties of the source *)

(** ** The visible window *)

(** X1.  [visibleLines] panics exactly when there is content and the
    offset lies beyond its length; in every other model, whatever the
    height, it returns. *)
Theorem visibleLines_panics_iff (m : ViewportModel) :
  visibleLines m = Panic <-> 0 < len (lines m) < YOffset m.
Proof.
  pose proof (len_nonneg (lines m)) as HL0.
  unfold visibleLines.
  destruct (len (lines m) >? 0) eqn:EL.
  - rewrite max_spec, clamp_spec. unfold slice.
    generalize (Int.add (YOffset m) (Height m)). intros w.
    cases; split; intros H;
      try discriminate; try reflexivity; try lia; exfalso; lia.
  - split; [discriminate | lia].
Qed.

Lemma visibleLines_segment (m : ViewportModel) :
  well_formed m ->
  0 <= Height m ->
  0 <= YOffset m <= len (lines m) ->
  YOffset m + Height m <= Int.max_int ->
  visibleLines m
  = Ok (firstn (Z.to_nat (Height m)) (skipn (Z.to_nat (YOffset m)) (lines m)))
  /\ len (firstn (Z.to_nat (Height m)) (skipn (Z.to_nat (YOffset m)) (lines m)))
     = Z.min (Height m) (len (lines m) - YOffset m).
Proof.
  intros [HrH [HrY HrL]] HH HY Hsum.
  assert (Elen : len (firstn (Z.to_nat (Height m))
                        (skipn (Z.to_nat (YOffset m)) (lines m)))
                 = Z.min (Height m) (len (lines m) - YOffset m)).
  { unfold len in *. rewrite length_firstn, length_skipn. lia. }
  split; [| exact Elen].
  unfold visibleLines. destruct (len (lines m) >? 0) eqn:EL.
  - arith.
    assert (Et : Z.max 0 (YOffset m) = YOffset m) by lia.
    rewrite Et, slice_ok by lia. f_equal.
    destruct (Z_le_gt_dec (YOffset m + Height m) (len (lines m))) as [Hle | Hgt].
    + f_equal. lia.
    + replace (Z.min (len (lines m)) (Z.max (YOffset m) (YOffset m + Height m))
               - YOffset m)
        with (len (lines m) - YOffset m) by lia.
      rewrite !firstn_all2; [reflexivity | |];
        rewrite length_skipn; unfold len in *; lia.
  - assert (E0 : lines m = []).
    { destruct (lines m); [reflexivity | cbn in EL; lia]. }
    rewrite E0. now rewrite skipn_nil, firstn_nil.
Qed.

(** X2.  With a height that is not negative and an offset within the
    content, [visibleLines] returns the lines from the offset on, as many
    as the height or as are left: never more than [Height] lines. *)
Theorem visibleLines_window (m : ViewportModel) :
  well_formed m ->
  0 <= Height m ->
  0 <= YOffset m <= len (lines m) ->
  YOffset m + Height m <= Int.max_int ->
  visibleLines m
  = Ok (firstn (Z.to_nat (Height m)) (skipn (Z.to_nat (YOffset m)) (lines m)))
  /\ len (firstn (Z.to_nat (Height m)) (skipn (Z.to_nat (YOffset m)) (lines m)))
     = Z.min (Height m) (len (lines m) - YOffset m).
Proof. exact (visibleLines_segment m). Qed.

Lemma visibleLines_window_witness :
  visibleLines (set_YOffset 8 ten_lines) = Ok ["9"; "10"]%string
  /\ len ["9"; "10"]%string
     = Z.min (Height (set_YOffset 8 ten_lines))
         (len (lines (set_YOffset 8 ten_lines))
          - YOffset (set_YOffset 8 ten_lines)).
Proof.
  refine (visibleLines_window (set_YOffset 8 ten_lines) _ _ _ _).
  - unfold well_formed, Int.in_range. vm_compute. repeat split; discriminate.
  - vm_compute. discriminate.
  - vm_compute. split; discriminate.
  - vm_compute. discriminate.
Defined.

(** Beyond the last hypothesis the sum wraps around: with the largest
    height and offset 1 nothing is visible. *)
Example visibleLines_height_overflow :
  visibleLines (mkViewportModel 0 Int.max_int 1 0 false ["a"; "b"; "c"]%string)
  = Ok [].
Proof. reflexivity. Qed.

(** ** Lines and newlines *)

Lemma split_lines_nonempty (s : string) : split_lines s <> [].
Proof.
  pose proof (split_lines_length s) as H. intros E. rewrite E in H.
  cbn in H. lia.
Qed.

Lemma join_cons_char (c : ascii) (h : string) (t : list string) :
  join (String c h :: t) = String c (join (h :: t)).
Proof. destruct t; reflexivity. Qed.

(** [strings.Join] undoes [strings.Split]. *)
Lemma join_split_lines (s : string) : join (split_lines s) = s.
Proof.
  induction s as [| c s IH]; [reflexivity |].
  cbn [split_lines]. destruct (Ascii.eqb c LF) eqn:E.
  - apply Ascii.eqb_eq in E. subst c.
    destruct (split_lines s) as [| h t] eqn:El.
    + now destruct (split_lines_nonempty s).
    + change (join (EmptyString :: h :: t)) with (String LF (join (h :: t))).
      now rewrite IH.
  - destruct (split_lines s) as [| h t] eqn:El.
    + now destruct (split_lines_nonempty s).
    + rewrite join_cons_char. now rewrite IH.
Qed.

Lemma append_empty_r (s : string) : String.append s EmptyString = s.
Proof. induction s as [| c s IH]; cbn; [reflexivity | now rewrite IH]. Qed.

Lemma count_LF_append (a b : string) :
  count_LF (a ++ b) = (count_LF a + count_LF b)%nat.
Proof.
  induction a as [| c a IH]; cbn [String.append count_LF]; [reflexivity |].
  destruct (Ascii.eqb c LF); cbn [Nat.add]; now rewrite IH.
Qed.

Lemma count_LF_repeat (n : nat) : count_LF (repeat_string newline n) = n.
Proof.
  induction n as [| n IH]; [reflexivity |].
  cbn [repeat_string]. rewrite count_LF_append, IH. reflexivity.
Qed.

Lemma count_LF_normalize (s : string) : count_LF (normalize s) = count_LF s.
Proof.
  enough (H : count_LF (normalize s) = count_LF s
              /\ forall c, count_LF (normalize (String c s))
                           = count_LF (String c s)) by apply H.
  induction s as [| c' s [IH1 IH2]].
  - split; [| intros c]; reflexivity.
  - split; [apply IH2 |]. intros c.
    change (normalize (String c (String c' s)))
      with (if Ascii.eqb c CR && Ascii.eqb c' LF
            then String LF (normalize s)
            else String c (normalize (String c' s))).
    destruct (Ascii.eqb c CR) eqn:Ec; destruct (Ascii.eqb c' LF) eqn:Ec';
      cbn [andb].
    + apply Ascii.eqb_eq in Ec, Ec'. subst c c'. cbn [count_LF].
      change (Ascii.eqb LF LF) with true. change (Ascii.eqb CR LF) with false.
      cbn iota. now rewrite IH1.
    + cbn [count_LF]. now rewrite IH2.
    + cbn [count_LF]. now rewrite IH2.
    + cbn [count_LF]. now rewrite IH2.
Qed.

Lemma split_lines_count (s : string) :
  List.length (split_lines s) = S (count_LF s)
  /\ Forall (fun l => count_LF l = O) (split_lines s).
Proof.
  induction s as [| c s [IH1 IH2]]; cbn [split_lines count_LF].
  - split; [reflexivity | repeat constructor].
  - destruct (Ascii.eqb c LF) eqn:E.
    + split; [cbn [List.length]; now rewrite IH1
             | constructor; [reflexivity | exact IH2]].
    + destruct (split_lines s) as [| h t]; [discriminate IH1 |].
      split; [exact IH1 |]. apply Forall_cons_iff in IH2 as [Hh Ht].
      constructor; [cbn [count_LF]; now rewrite E | exact Ht].
Qed.

Lemma count_LF_join (l : list string) :
  Forall (fun s => count_LF s = O) l ->
  count_LF (join l) = Nat.pred (List.length l).
Proof.
  induction 1 as [| a l Ha Hl IH]; [reflexivity |].
  destruct l as [| b l]; [exact Ha |].
  change (join (a :: b :: l)) with (a ++ newline ++ join (b :: l))%string.
  rewrite !count_LF_append, Ha, IH. reflexivity.
Qed.

Lemma Forall_segment {A : Type} (P : A -> Prop) (l : list A) (i n : nat) :
  Forall P l -> Forall P (firstn n (skipn i l)).
Proof.
  intros H. rewrite <- (firstn_skipn i l) in H.
  apply Forall_app in H as [_ H].
  rewrite <- (firstn_skipn n (skipn i l)) in H.
  now apply Forall_app in H as [H _].
Qed.

(** X3.  Whatever the model, after [SetContent(s)] the lines are the
    fields of the normalized content: there is one line more than there
    are newline characters in [s] (so never zero lines), and no line holds
    a newline character. *)
Theorem SetContent_line_count (s : string) (m : ViewportModel) :
  let m' := after (SetContent s m) in
  lines m' = split_lines (normalize s)
  /\ List.length (lines m') = S (count_LF s)
  /\ Forall (fun l => count_LF l = O) (lines m')
  /\ join (lines m') = normalize s.
Proof.
  cbv zeta.
  assert (El : lines (after (SetContent s m)) = split_lines (normalize s)).
  { destruct (YOffset m >? Int.sub (len (split_lines (normalize s))) 1) eqn:E.
    - rewrite (SetContent_snap s m E), GotoBottom_after. reflexivity.
    - unfold SetContent, bind, put_lines, get, ret, after.
      cbn [lines YOffset set_lines]. rewrite E. reflexivity. }
  rewrite El. destruct (split_lines_count (normalize s)) as [H1 H2].
  repeat split.
  - now rewrite H1, count_LF_normalize.
  - exact H2.
  - apply join_split_lines.
Qed.

(** ** Rendering the content *)

(** X4.  On a model at offset 0 in standard mode whose height is at least
    the number of lines of the new content, [SetContent(s)] returns
    without touching the offset, and [View] then renders the normalized
    content itself, followed by one newline for each row of the window
    that the content leaves empty. *)
Theorem View_shows_content (s : string) (m : ViewportModel) :
  well_formed m ->
  HighPerformanceRendering m = false ->
  YOffset m = 0 ->
  Z.of_nat (String.length s) < Int.max_int ->
  len (split_lines (normalize s)) <= Height m ->
  SetContent s m = (Ok tt, set_lines (split_lines (normalize s)) m)
  /\ View (after (SetContent s m))
     = Ok (String.append (normalize s)
             (repeat_string newline
                (Z.to_nat (Height m - len (split_lines (normalize s)))))).
Proof.
  intros [HrH [HrY HrL]] Hhp Hoff Hs Hfit.
  pose proof (content_lines s) as HL.
  pose proof (join_split_lines (normalize s)) as Hjoin.
  remember (split_lines (normalize s)) as L eqn:EL.
  assert (E : SetContent s m = (Ok tt, set_lines L m)).
  { unfold SetContent, bind, put_lines, get, ret.
    cbn [lines YOffset set_lines]. rewrite <- EL, Hoff.
    unfold Int.sub. rewrite wrap_id by int_range.
    destruct (0 >? len L - 1) eqn:E0; [lia | reflexivity]. }
  split; [exact E |].
  rewrite E. unfold after, View, visibleLines.
  cbn [snd lines YOffset Height HighPerformanceRendering set_lines].
  rewrite Hhp, Hoff.
  destruct (len L >? 0) eqn:EL0; [| lia].
  arith.
  change (Z.max 0 0) with 0.
  rewrite slice_ok by lia.
  change (skipn (Z.to_nat 0) L) with L.
  match goal with
  | |- context [firstn ?n L] =>
      replace (firstn n L) with L
        by (symmetry; apply firstn_all2; unfold len in *; lia)
  end.
  unwrap. rewrite Hjoin.
  destruct (len L <? Height m) eqn:Elt.
  - unfold Repeat. destruct (Height m - len L <? 0) eqn:En; [lia | reflexivity].
  - replace (Height m - len L) with 0 by lia. reflexivity.
Qed.

Lemma View_shows_content_witness :
  let s := "one
two
three"%string in
  SetContent s (set_Height 5 zero_model)
  = (Ok tt, set_lines (split_lines (normalize s)) (set_Height 5 zero_model))
  /\ View (after (SetContent s (set_Height 5 zero_model)))
     = Ok (String.append (normalize s)
             (repeat_string newline
                (Z.to_nat (Height (set_Height 5 zero_model)
                           - len (split_lines (normalize s)))))).
Proof.
  refine (View_shows_content _ (set_Height 5 zero_model) _ _ _ _ _).
  - unfold well_formed, Int.in_range. vm_compute. repeat split; discriminate.
  - reflexivity.
  - reflexivity.
  - vm_compute. reflexivity.
  - vm_compute. discriminate.
Defined.

(** The same with line endings of both kinds: the carriage return before
    a newline is dropped, one elsewhere is kept. *)
Example View_normalizes_line_endings :
  View (after (SetContent (String "a" (String CR (String LF
                 (String "b" (String CR (String "c" (String LF "d")))))))
                 (set_Height 3 zero_model)))
  = Ok (String "a" (String LF
          (String "b" (String CR (String "c" (String LF "d")))))).
Proof. reflexivity. Qed.

(** X5.  The rendering spans exactly [Height] rows, that is, it holds
    [Height - 1] newline characters, in high performance mode and, when
    no line holds a newline character (as after [SetContent]) and the
    offset designates a line, in standard mode alike. *)
Theorem View_row_count (m : ViewportModel) :
  well_formed m ->
  1 <= Height m ->
  Forall (fun l => count_LF l = O) (lines m) ->
  HighPerformanceRendering m = true
  \/ (0 <= YOffset m < len (lines m) /\ YOffset m + Height m <= Int.max_int) ->
  exists out, View m = Ok out /\ Z.of_nat (count_LF out) = Height m - 1.
Proof.
  intros Hwf HH Hlf Hmode. unfold View.
  destruct (HighPerformanceRendering m) eqn:Ehp.
  - destruct Hwf as [HrH _]. unfold Repeat. unwrap.
    destruct (Height m - 1 <? 0) eqn:E; [lia |].
    eexists. split; [reflexivity |]. rewrite count_LF_repeat. lia.
  - destruct Hmode as [Hhp | [Hoff Hsum]]; [discriminate |].
    destruct (visibleLines_segment m Hwf ltac:(lia) ltac:(lia) Hsum)
      as [Ev Elen].
    rewrite Ev.
    remember (firstn (Z.to_nat (Height m))
                (skipn (Z.to_nat (YOffset m)) (lines m))) as vis eqn:Evis.
    assert (Hvis : Forall (fun l => count_LF l = O) vis)
      by (subst vis; now apply Forall_segment).
    pose proof (count_LF_join vis Hvis) as Hj.
    destruct Hwf as [HrH [HrY HrL]].
    assert (Hpos : 1 <= len vis <= Height m) by lia.
    destruct (len vis <? Height m) eqn:Elt.
    + unfold Repeat. unwrap.
      destruct (Height m - len vis <? 0) eqn:En; [lia |].
      eexists. split; [reflexivity |].
      rewrite count_LF_append, count_LF_repeat, Hj. unfold len in *. lia.
    + eexists. split; [reflexivity |].
      rewrite count_LF_append, Hj. cbn [count_LF]. unfold len in *. lia.
Qed.

Lemma View_row_count_witness :
  (exists out,
     View accelerated_window = Ok out
     /\ Z.of_nat (count_LF out) = Height accelerated_window - 1)
  /\ (exists out,
        View five_lines = Ok out
        /\ Z.of_nat (count_LF out) = Height five_lines - 1).
Proof.
  split.
  - refine (View_row_count accelerated_window _ _ _ _).
    + unfold well_formed, Int.in_range. vm_compute. repeat split; discriminate.
    + vm_compute. discriminate.
    + repeat constructor.
    + left. reflexivity.
  - refine (View_row_count five_lines _ _ _ _).
    + unfold well_formed, Int.in_range. vm_compute. repeat split; discriminate.
    + vm_compute. discriminate.
    + repeat constructor.
    + right. vm_compute. repeat split; discriminate.
Defined.

(** When no line is visible the standard rendering is one row taller:
    the zero value with height 4 renders four newlines, five rows. *)
Example View_without_content :
  View (set_Height 4 zero_model) = Ok (repeat_string newline 4)
  /\ View (mkViewportModel 0 4 0 0 true []) = Ok (repeat_string newline 3).
Proof. split; reflexivity. Qed.

(** ** The sync command *)

(** X6.  On a settled model within its bound, [Sync] returns no command
    when there are no lines, and otherwise a [SyncScrollArea] over the rows
    [YPosition .. YPosition + Height] that carries the visible lines;
    except that when the whole content fits in the window the last line
    is left out, the slice of [Sync] being cut at [len(lines)-1]. *)
Theorem Sync_lines (m : ViewportModel) :
  settled m -> bounded m ->
  (len (lines m) = 0 -> Command.Sync m = Ok None)
  /\ (0 < len (lines m) ->
      exists l vis,
        Command.Sync m
        = Ok (Some (SyncScrollArea l (YPosition m)
                      (Int.add (YPosition m) (Height m))))
        /\ visibleLines m = Ok vis
        /\ l = if Height m <? len (lines m) then vis else removelast vis).
Proof.
  intros [Hwf [HH HY]] Hb. unfold bounded in Hb. split.
  - intros H0. unfold Command.Sync. now rewrite H0.
  - intros Hpos.
    pose proof Hwf as [HrH [HrY HrL]].
    assert (Hsum : YOffset m + Height m <= Int.max_int) by int_range.
    destruct (visibleLines_segment m Hwf HH ltac:(lia) Hsum) as [Ev _].
    unfold Command.Sync. destruct (len (lines m) =? 0) eqn:E0; [lia |].
    arith.
    replace (Z.max (YOffset m) 0) with (YOffset m) by lia.
    rewrite slice_ok by lia.
    do 2 eexists. split; [reflexivity |]. split; [exact Ev |].
    destruct (Height m <? len (lines m)) eqn:Elt.
    + f_equal. lia.
    + assert (Eo : YOffset m = 0) by lia. rewrite Eo.
      change (skipn (Z.to_nat 0) (lines m)) with (lines m).
      rewrite (firstn_all2 (n := Z.to_nat (Height m)))
        by (unfold len in *; lia).
      rewrite removelast_firstn_len. f_equal. unfold len in *. lia.
Qed.

Lemma Sync_lines_witness :
  Command.Sync zero_model = Ok None
  /\ (exists l vis,
        Command.Sync five_lines
        = Ok (Some (SyncScrollArea l (YPosition five_lines)
                      (Int.add (YPosition five_lines) (Height five_lines))))
        /\ visibleLines five_lines = Ok vis
        /\ l = if Height five_lines <? len (lines five_lines)
               then vis else removelast vis).
Proof.
  split.
  - refine (proj1 (Sync_lines zero_model _ _) eq_refl).
    + unfold settled, well_formed, Int.in_range. vm_compute.
      repeat split; discriminate.
    + unfold bounded. vm_compute. discriminate.
  - refine (proj2 (Sync_lines five_lines _ _) _).
    + unfold settled, well_formed, Int.in_range. vm_compute.
      repeat split; discriminate.
    + unfold bounded. vm_compute. discriminate.
    + vm_compute. reflexivity.
Defined.

(** Five lines in a window of height 10: all five are visible, four are
    synced. *)
Example Sync_five_lines :
  Command.Sync five_lines
  = Ok (Some (SyncScrollArea ["1"; "2"; "3"; "4"]%string 0 10))
  /\ visibleLines five_lines = Ok ["1"; "2"; "3"; "4"; "5"]%string.
Proof. split; reflexivity. Qed.

(** ** The update loop *)

(** Every message either is ignored or is dispatched to one navigation
    method, called with a line count that is not negative. *)
Lemma Update_cases (msg : Msg) :
  Update msg = ret None
  \/ exists op command,
      valid_call (Nav op)
      /\ Update msg = dispatch (run_op op) command
      /\ (command = Command.ViewDown \/ command = Command.ViewUp).
Proof.
  assert (Hv : 0 <= mouseWheelDelta <= Int.max_int)
    by (unfold mouseWheelDelta; int_range).
  assert (H1 : 0 <= 1 <= Int.max_int) by int_range.
  destruct msg as [name | [| |] |]; cbn [Update].
  - cases; [| | | | | | now left]; right.
    + exists OpViewDown, Command.ViewDown. cbn; auto.
    + exists OpViewUp, Command.ViewUp. cbn; auto.
    + exists OpHalfViewDown, Command.ViewDown. cbn; auto.
    + exists OpHalfViewUp, Command.ViewUp. cbn; auto.
    + exists (OpLineDown 1), Command.ViewDown. cbn [valid_call run_op]; auto.
    + exists (OpLineUp 1), Command.ViewUp. cbn [valid_call run_op]; auto.
  - right. exists (OpLineUp mouseWheelDelta), Command.ViewUp.
    cbn [valid_call run_op]; auto.
  - right. exists (OpLineDown mouseWheelDelta), Command.ViewDown.
    cbn [valid_call run_op]; auto.
  - now left.
  - now left.
Qed.

(** X7.  From a settled model [Update] returns for every message, without
    a panic; the model it returns is settled, stays within the offset bound
    when the model was within it, and differs from the model it was given
    in [YOffset] at most. *)
Theorem Update_keeps_invariant (msg : Msg) (m : ViewportModel) :
  settled m ->
  exists cmd m',
    Update msg m = (Ok cmd, m')
    /\ settled m'
    /\ (bounded m -> bounded m')
    /\ m' = set_YOffset (YOffset m') m.
Proof.
  intros Hm.
  destruct (Update_cases msg) as [E | (op & command & Hv & E & _)]; rewrite E.
  - exists None, m. unfold ret. repeat split; try apply Hm; auto.
    symmetry. apply set_YOffset_same.
  - destruct (run_op_step op m Hm Hv) as (d & m' & Eop & Hs & Hb).
    pose proof (run_op_writes_offset op m) as Hf.
    rewrite Eop in Hf. cbn [after snd] in Hf.
    unfold dispatch, bind, get, ret. rewrite Eop.
    destruct (HighPerformanceRendering m'); eauto 8.
Qed.

Lemma Update_keeps_invariant_witness :
  exists cmd m',
    Update (KeyMsg "pgdown") ten_lines = (Ok cmd, m')
    /\ settled m'
    /\ bounded m'
    /\ m' = set_YOffset (YOffset m') ten_lines.
Proof.
  assert (Hs : settled ten_lines).
  { unfold settled, well_formed, Int.in_range. vm_compute.
    repeat split; discriminate. }
  assert (Hb : bounded ten_lines).
  { unfold bounded. vm_compute. discriminate. }
  destruct (Update_keeps_invariant (KeyMsg "pgdown") ten_lines Hs)
    as (cmd & m' & H1 & H2 & H3 & H4).
  exists cmd, m'. exact (conj H1 (conj H2 (conj (H3 Hb) H4))).
Defined.

(** X8.  Whenever [Update] returns: in standard mode the command is
    [nil]; in high performance mode a command, if there is one, is a
    [ScrollUp] or [ScrollDown] that carries at least one line and the rows
    [YPosition .. YPosition + Height] of the model. *)
Theorem Update_command (msg : Msg) (m m' : ViewportModel)
    (cmd : option Cmd) :
  Update msg m = (Ok cmd, m') ->
  (HighPerformanceRendering m = false -> cmd = None)
  /\ forall c, cmd = Some c ->
       exists l,
         l <> []
         /\ (c = ScrollUp l (YPosition m) (Int.add (YPosition m) (Height m))
             \/ c = ScrollDown l (YPosition m)
                      (Int.add (YPosition m) (Height m))).
Proof.
  intros E.
  destruct (Update_cases msg) as [E0 | (op & command & _ & E0 & Hc)];
    rewrite E0 in E.
  - unfold ret in E. injection E as <- <-.
    split; [reflexivity | discriminate].
  - pose proof (run_op_writes_offset op m) as Hf.
    unfold dispatch, bind, get, ret in E.
    destruct (run_op op m) as [[d |] m1] eqn:Eop; [| discriminate].
    cbn [after snd] in Hf.
    assert (Hhp : HighPerformanceRendering m1 = HighPerformanceRendering m)
      by (rewrite Hf; reflexivity).
    assert (Hyp : YPosition m1 = YPosition m) by (rewrite Hf; reflexivity).
    assert (Hh : Height m1 = Height m) by (rewrite Hf; reflexivity).
    rewrite Hhp in E.
    destruct (HighPerformanceRendering m) eqn:Ehp.
    + injection E as <- <-. split; [discriminate |].
      intros c Hcmd.
      destruct Hc as [-> | ->];
        unfold Command.ViewDown, Command.ViewUp in Hcmd;
        destruct (len d =? 0) eqn:Ed; try discriminate;
        injection Hcmd as <-; rewrite Hyp, Hh;
        exists d; (split; [intros ->; cbn in Ed; lia | auto]).
    + injection E as <- <-. split; [reflexivity | discriminate].
Qed.

Lemma Update_command_witness :
  let m := set_YOffset 2 accelerated_window in
  exists l,
    l <> []
    /\ (Some (ScrollUp ["2"]%string 0 4)
        = Some (ScrollUp l (YPosition m) (Int.add (YPosition m) (Height m)))
        \/ Some (ScrollUp ["2"]%string 0 4)
           = Some (ScrollDown l (YPosition m)
                     (Int.add (YPosition m) (Height m)))).
Proof.
  cbv zeta.
  destruct (Update_command (KeyMsg "k") (set_YOffset 2 accelerated_window)
              (set_YOffset 1 accelerated_window)
              (Some (ScrollUp ["2"]%string 0 4)) eq_refl) as [_ H].
  destruct (H _ eq_refl) as (l & Hl & [Hc | Hc]);
    exists l; (split; [exact Hl |]); [left | right]; now rewrite Hc.
Defined.

(** ** Where each method leaves the offset *)

Lemma set_YOffset_eq (y : Z) (m : ViewportModel) :
  y = YOffset m -> m = set_YOffset y m.
Proof. intros ->. symmetry. apply set_YOffset_same. Qed.

Section Offsets.

Variable m : ViewportModel.
Hypothesis Hm : settled m.

Let off : Z := YOffset m.
Let bottom : Z := len (lines m) - 1 - Height m.

Ltac prepare :=
  subst off bottom;
  destruct Hm as [[HrH [HrY HrL]] [HH HY]];
  pose proof (len_nonneg (lines m)) as HL0;
  pose proof (half_height (Height m) HH HrH) as Hhalf;
  pose proof (Z.div_pos (Height m) 2 HH ltac:(lia)) as Hh0;
  pose proof (Z.div_le_upper_bound (Height m) 2 (Height m)
                ltac:(lia) ltac:(lia)) as Hh1;
  run; rewrite ?Hhalf in *; cases; arith;
  try (rewrite slice_ok by lia).

Ltac same_state :=
  first [ apply set_YOffset_eq; cbn [YOffset]; lia
        | lia
        | f_equal; lia ].

Ltac moved := prepare; eexists; f_equal; try reflexivity; same_state.

Ltac same_diff :=
  lazymatch goal with
  | |- (Ok [], _) = (Ok (firstn (Z.to_nat ?a) _), _) =>
      replace (Z.to_nat a) with O by lia;
      cbn [firstn]; f_equal; same_state
  | |- (Ok (firstn (Z.to_nat ?a) (skipn (Z.to_nat ?b) _)), set_YOffset ?y _)
       = (Ok (firstn (Z.to_nat ?a') (skipn (Z.to_nat ?b') _)),
          set_YOffset ?y' _) =>
      let Ha := fresh in
      let Hb := fresh in
      let Hy := fresh in
      assert (Ha : a = a') by lia;
      assert (Hb : b = b') by lia;
      assert (Hy : y = y') by lia;
      rewrite Ha, Hb, Hy; reflexivity
  end.

Lemma ViewDown_offset :
  exists d,
    ViewDown m = (Ok d, set_YOffset (Z.max off (Z.min (off + Height m) bottom)) m).
Proof. moved. Qed.

Lemma ViewUp_offset :
  exists d,
    ViewUp m = (Ok d, set_YOffset (Z.min off (Z.max (off - Height m) 0)) m).
Proof. moved. Qed.

Lemma HalfViewDown_offset :
  exists d,
    HalfViewDown m
    = (Ok d, set_YOffset (Z.max off (Z.min (off + Height m / 2) bottom)) m).
Proof. moved. Qed.

Lemma HalfViewUp_offset :
  exists d,
    HalfViewUp m
    = (Ok d, set_YOffset (Z.min off (Z.max (off - Height m / 2) 0)) m).
Proof. moved. Qed.

Lemma LineDown_offset (n : Z) :
  0 <= n <= Int.max_int ->
  let y := Z.max off (Z.min (off + n) bottom) in
  LineDown n m
  = (Ok (firstn (Z.to_nat (y - off))
           (skipn (Z.to_nat (off + Height m)) (lines m))),
     set_YOffset y m).
Proof. intros Hn. cbv zeta. prepare; same_diff. Qed.

Lemma LineUp_offset (n : Z) :
  0 <= n <= Int.max_int ->
  let y := Z.min off (Z.max (off - n) 0) in
  LineUp n m
  = (Ok (firstn (Z.to_nat (off - y)) (skipn (Z.to_nat y) (lines m))),
     set_YOffset y m).
Proof. intros Hn. cbv zeta. prepare; same_diff. Qed.

End Offsets.

(** ** Line steps *)

(** X9.  From a settled model and for a line count that is not negative,
    [LineDown(n)] and [LineUp(n)] return a diff of exactly as many lines
    as the offset moved, at most [n]: the lines below the old window for
    [LineDown], the lines between the new and the old offset for
    [LineUp]. *)
Theorem line_diff_is_the_movement (n : Z) (m : ViewportModel) :
  settled m -> 0 <= n <= Int.max_int ->
  exists d_down m_down d_up m_up,
    LineDown n m = (Ok d_down, m_down)
    /\ len d_down = YOffset m_down - YOffset m
    /\ 0 <= YOffset m_down - YOffset m <= n
    /\ d_down = firstn (Z.to_nat (len d_down))
                  (skipn (Z.to_nat (YOffset m + Height m)) (lines m))
    /\ LineUp n m = (Ok d_up, m_up)
    /\ len d_up = YOffset m - YOffset m_up
    /\ 0 <= YOffset m - YOffset m_up <= n
    /\ d_up = firstn (Z.to_nat (len d_up))
                (skipn (Z.to_nat (YOffset m_up)) (lines m)).
Proof.
  intros Hm Hn.
  pose proof (LineDown_offset m Hm n Hn) as Ed.
  pose proof (LineUp_offset m Hm n Hn) as Eu.
  cbv zeta in Ed, Eu.
  destruct Hm as [[HrH [HrY HrL]] [HH HY]].
  pose proof (len_nonneg (lines m)) as HL0.
  do 4 eexists.
  split; [exact Ed |]. cbn [YOffset set_YOffset].
  assert (Ld : len (firstn
                      (Z.to_nat (Z.max (YOffset m)
                                   (Z.min (YOffset m + n)
                                      (len (lines m) - 1 - Height m))
                                 - YOffset m))
                      (skipn (Z.to_nat (YOffset m + Height m)) (lines m)))
               = Z.max (YOffset m)
                   (Z.min (YOffset m + n) (len (lines m) - 1 - Height m))
                 - YOffset m).
  { unfold len in *. rewrite length_firstn, length_skipn. lia. }
  assert (Lu : len (firstn
                      (Z.to_nat (YOffset m
                                 - Z.min (YOffset m) (Z.max (YOffset m - n) 0)))
                      (skipn (Z.to_nat (Z.min (YOffset m)
                                          (Z.max (YOffset m - n) 0)))
                         (lines m)))
               = YOffset m - Z.min (YOffset m) (Z.max (YOffset m - n) 0)).
  { unfold len in *. rewrite length_firstn, length_skipn. lia. }
  split; [exact Ld |]. split; [lia |].
  split; [now rewrite Ld |].
  split; [exact Eu |]. cbn [YOffset set_YOffset].
  split; [exact Lu |]. split; [lia |].
  now rewrite Lu.
Qed.

Lemma line_diff_is_the_movement_witness :
  exists d_down m_down d_up m_up,
    LineDown 4 (set_YOffset 5 ten_lines) = (Ok d_down, m_down)
    /\ len d_down = YOffset m_down - YOffset (set_YOffset 5 ten_lines)
    /\ 0 <= YOffset m_down - YOffset (set_YOffset 5 ten_lines) <= 4
    /\ d_down = firstn (Z.to_nat (len d_down))
                  (skipn (Z.to_nat (YOffset (set_YOffset 5 ten_lines)
                                    + Height (set_YOffset 5 ten_lines)))
                     (lines (set_YOffset 5 ten_lines)))
    /\ LineUp 4 (set_YOffset 5 ten_lines) = (Ok d_up, m_up)
    /\ len d_up = YOffset (set_YOffset 5 ten_lines) - YOffset m_up
    /\ 0 <= YOffset (set_YOffset 5 ten_lines) - YOffset m_up <= 4
    /\ d_up = firstn (Z.to_nat (len d_up))
                (skipn (Z.to_nat (YOffset m_up))
                   (lines (set_YOffset 5 ten_lines))).
Proof.
  refine (line_diff_is_the_movement 4 (set_YOffset 5 ten_lines) _ _).
  - unfold settled, well_formed, Int.in_range. vm_compute.
    repeat split; discriminate.
  - unfold Int.max_int. vm_compute. split; discriminate.
Defined.

(** The half page does not share this: in a window of height 1 the
    offset stays where it is (height/2 = 0) and the diff holds a line. *)
Example HalfViewDown_diff_without_movement :
  HalfViewDown (set_Height 1 ten_lines)
  = (Ok ["1"%string], set_Height 1 ten_lines).
Proof. reflexivity. Qed.

(** ** Direction *)

(** X10.  From a settled model no method scrolls the wrong way: the
    offset does not decrease in [ViewDown], [HalfViewDown] and
    [LineDown(n)], nor in [GotoBottom] when the offset is within its
    bound; it does not increase in [ViewUp], [HalfViewUp], [LineUp(n)] and
    [GotoTop]. *)
Theorem offsets_monotone (op : NavOp) (m : ViewportModel) :
  settled m -> valid_call (Nav op) ->
  (moves_down op = true ->
   op <> OpGotoBottom \/ bounded m ->
   YOffset m <= YOffset (after (run_op op m)))
  /\ (moves_down op = false -> YOffset (after (run_op op m)) <= YOffset m).
Proof.
  intros Hm Hv. pose proof Hm as [[HrH [HrY HrL]] [HH HY]].
  pose proof (Z.div_pos (Height m) 2 HH ltac:(lia)) as Hh0.
  unfold bounded.
  destruct op; cbn [run_op moves_down valid_call] in *;
    (split; [| try discriminate]); try discriminate; intros _.
  - intros _. destruct (ViewDown_offset m Hm) as [d ->]. cbn. lia.
  - destruct (ViewUp_offset m Hm) as [d ->]. cbn. lia.
  - intros _. destruct (HalfViewDown_offset m Hm) as [d ->]. cbn. lia.
  - destruct (HalfViewUp_offset m Hm) as [d ->]. cbn. lia.
  - intros _. rewrite (LineDown_offset m Hm n Hv). cbn. lia.
  - rewrite (LineUp_offset m Hm n Hv). cbn. lia.
  - destruct (GotoTop_step m Hm) as (d & m' & -> & _ & E). cbn. lia.
  - intros [Hne | Hb]; [now destruct Hne |].
    destruct (GotoBottom_step m Hm) as (d & m' & -> & _ & _ & E). cbn. lia.
Qed.

Lemma offsets_monotone_witness :
  YOffset (set_YOffset 2 ten_lines)
  <= YOffset (after (run_op (OpLineDown 3) (set_YOffset 2 ten_lines)))
  /\ YOffset (after (run_op OpHalfViewUp (set_YOffset 2 ten_lines)))
     <= YOffset (set_YOffset 2 ten_lines).
Proof.
  assert (Hs : settled (set_YOffset 2 ten_lines)).
  { unfold settled, well_formed, Int.in_range. vm_compute.
    repeat split; discriminate. }
  split.
  - refine (proj1 (offsets_monotone (OpLineDown 3) _ Hs _) eq_refl _).
    + unfold valid_call, Int.max_int. vm_compute. split; discriminate.
    + left. discriminate.
  - exact (proj2 (offsets_monotone OpHalfViewUp _ Hs I) eq_refl).
Defined.

(** ** Pages and lines *)

(** X11.  From a settled model a page moves the offset as [Height] line
    steps do and a half page as [Height/2] line steps: [ViewDown] leaves
    the offset of [LineDown(Height)], [HalfViewDown] that of
    [LineDown(Height/2)], and likewise upward. *)
Theorem page_moves_as_lines (m : ViewportModel) :
  settled m ->
  YOffset (after (ViewDown m)) = YOffset (after (LineDown (Height m) m))
  /\ YOffset (after (ViewUp m)) = YOffset (after (LineUp (Height m) m))
  /\ YOffset (after (HalfViewDown m))
     = YOffset (after (LineDown (Int.div (Height m) 2) m))
  /\ YOffset (after (HalfViewUp m))
     = YOffset (after (LineUp (Int.div (Height m) 2) m)).
Proof.
  intros Hm. pose proof Hm as [[HrH [HrY HrL]] [HH HY]].
  rewrite (half_height (Height m) HH HrH).
  pose proof (Z.div_pos (Height m) 2 HH ltac:(lia)) as Hh0.
  pose proof (Z.div_le_upper_bound (Height m) 2 (Height m)
                ltac:(lia) ltac:(lia)) as Hh1.
  assert (H1 : 0 <= Height m <= Int.max_int) by int_range.
  assert (H2 : 0 <= Height m / 2 <= Int.max_int) by int_range.
  destruct (ViewDown_offset m Hm) as [d1 ->].
  destruct (ViewUp_offset m Hm) as [d2 ->].
  destruct (HalfViewDown_offset m Hm) as [d3 ->].
  destruct (HalfViewUp_offset m Hm) as [d4 ->].
  rewrite !(LineDown_offset m Hm _ H1), !(LineUp_offset m Hm _ H1).
  rewrite !(LineDown_offset m Hm _ H2), !(LineUp_offset m Hm _ H2).
  repeat split; reflexivity.
Qed.

Lemma page_moves_as_lines_witness :
  let m := set_YOffset 4 ten_lines in
  YOffset (after (ViewDown m)) = YOffset (after (LineDown (Height m) m))
  /\ YOffset (after (ViewUp m)) = YOffset (after (LineUp (Height m) m))
  /\ YOffset (after (HalfViewDown m))
     = YOffset (after (LineDown (Int.div (Height m) 2) m))
  /\ YOffset (after (HalfViewUp m))
     = YOffset (after (LineUp (Int.div (Height m) 2) m)).
Proof.
  refine (page_moves_as_lines (set_YOffset 4 ten_lines) _).
  unfold settled, well_formed, Int.in_range. vm_compute.
  repeat split; discriminate.
Defined.

Lemma settled_set_YOffset (y : Z) (m : ViewportModel) :
  settled m -> 0 <= y <= Z.max 0 (len (lines m) - 1) ->
  settled (set_YOffset y m).
Proof.
  intros [[HrH [HrY HrL]] [HH HY]] Hy.
  pose proof (len_nonneg (lines m)).
  unfold settled, well_formed. cbn [Height YOffset lines set_YOffset].
  repeat split; try assumption; int_range.
Qed.

Lemma set_YOffset_twice (y y' : Z) (m : ViewportModel) :
  set_YOffset y (set_YOffset y' m) = set_YOffset y m.
Proof. reflexivity. Qed.

(** X12.  Line steps add up: from a settled model, [LineDown(a)] followed
    by [LineDown(b)] leaves the offset of [LineDown(a+b)], and so do
    [LineUp(a)], [LineUp(b)] and [LineUp(a+b)]; each call returns. *)
Theorem line_steps_add_up (a b : Z) (m : ViewportModel) :
  settled m -> 0 <= a -> 0 <= b -> a + b <= Int.max_int ->
  (exists d, result ((LineDown a ;;; LineDown b) m) = Ok d)
  /\ after ((LineDown a ;;; LineDown b) m) = after (LineDown (a + b) m)
  /\ (exists d, result ((LineUp a ;;; LineUp b) m) = Ok d)
  /\ after ((LineUp a ;;; LineUp b) m) = after (LineUp (a + b) m).
Proof.
  intros Hm Ha Hb Hab. pose proof Hm as [[HrH [HrY HrL]] [HH HY]].
  pose proof (len_nonneg (lines m)) as HL0.
  assert (Ha' : 0 <= a <= Int.max_int) by lia.
  assert (Hb' : 0 <= b <= Int.max_int) by lia.
  assert (Hab' : 0 <= a + b <= Int.max_int) by lia.
  pose proof (LineDown_offset m Hm a Ha') as Ed. cbv zeta in Ed.
  pose proof (LineUp_offset m Hm a Ha') as Eu. cbv zeta in Eu.
  unfold bind. rewrite Ed, Eu.
  rewrite (LineDown_offset m Hm _ Hab'), (LineUp_offset m Hm _ Hab').
  match type of Ed with
  | _ = (_, set_YOffset ?y _) =>
      assert (Hsd : settled (set_YOffset y m))
        by (apply settled_set_YOffset; [exact Hm | lia])
  end.
  match type of Eu with
  | _ = (_, set_YOffset ?y _) =>
      assert (Hsu : settled (set_YOffset y m))
        by (apply settled_set_YOffset; [exact Hm | lia])
  end.
  rewrite (LineDown_offset _ Hsd b Hb'), (LineUp_offset _ Hsu b Hb').
  cbv zeta. cbn [after result fst snd YOffset Height lines set_YOffset].
  repeat split; try (eexists; reflexivity);
    rewrite set_YOffset_twice; f_equal; lia.
Qed.

Lemma line_steps_add_up_witness :
  (exists d, result ((LineDown 2 ;;; LineDown 3) ten_lines) = Ok d)
  /\ after ((LineDown 2 ;;; LineDown 3) ten_lines)
     = after (LineDown (2 + 3) ten_lines)
  /\ (exists d, result ((LineUp 2 ;;; LineUp 3) ten_lines) = Ok d)
  /\ after ((LineUp 2 ;;; LineUp 3) ten_lines)
     = after (LineUp (2 + 3) ten_lines).
Proof.
  refine (line_steps_add_up 2 3 ten_lines _ _ _ _).
  - unfold settled, well_formed, Int.in_range. vm_compute.
    repeat split; discriminate.
  - discriminate.
  - discriminate.
  - unfold Int.max_int. vm_compute. discriminate.
Defined.

(** ** Paging through the content *)

Lemma times_two (k : nat) (c : M (list string)) (m : ViewportModel) :
  times (S (S k)) c m = (c ;;; times (S k) c) m.
Proof. reflexivity. Qed.

Lemma times_ViewDown_offset (k : nat) (m : ViewportModel) :
  settled m ->
  exists d,
    times k ViewDown m
    = (Ok d,
       set_YOffset
         (Z.max (YOffset m)
            (Z.min (YOffset m + Z.of_nat k * Height m)
               (len (lines m) - 1 - Height m))) m).
Proof.
  revert m. induction k as [| k IH]; intros m Hm.
  - exists []. unfold times, ret. f_equal. apply set_YOffset_eq.
    cbn [YOffset]. lia.
  - pose proof Hm as [[HrH [HrY HrL]] [HH HY]].
    pose proof (len_nonneg (lines m)) as HL0.
    destruct (ViewDown_offset m Hm) as [d Ed].
    destruct k as [| k].
    + exists d. cbn [times]. rewrite Ed. f_equal. f_equal. lia.
    + rewrite times_two. unfold bind. rewrite Ed.
      match type of Ed with
      | _ = (_, set_YOffset ?y _) =>
          assert (Hs : settled (set_YOffset y m))
            by (apply settled_set_YOffset; [exact Hm | lia])
      end.
      destruct (IH _ Hs) as [d' ->]. exists d'.
      cbn [YOffset Height lines set_YOffset]. rewrite set_YOffset_twice.
      pose proof (Z.mul_nonneg_nonneg (Z.of_nat (S k)) (Height m)
                    ltac:(lia) HH) as HK.
      replace (Z.of_nat (S (S k)) * Height m)
        with (Z.of_nat (S k) * Height m + Height m) by lia.
      f_equal. f_equal. lia.
Qed.

Lemma times_ViewUp_offset (k : nat) (m : ViewportModel) :
  settled m ->
  exists d,
    times k ViewUp m
    = (Ok d,
       set_YOffset
         (Z.min (YOffset m) (Z.max (YOffset m - Z.of_nat k * Height m) 0)) m).
Proof.
  revert m. induction k as [| k IH]; intros m Hm.
  - exists []. unfold times, ret. f_equal. apply set_YOffset_eq.
    cbn [YOffset]. destruct Hm as [_ [_ HY]]. lia.
  - pose proof Hm as [[HrH [HrY HrL]] [HH HY]].
    pose proof (len_nonneg (lines m)) as HL0.
    destruct (ViewUp_offset m Hm) as [d Ed].
    destruct k as [| k].
    + exists d. cbn [times]. rewrite Ed. f_equal. f_equal. lia.
    + rewrite times_two. unfold bind. rewrite Ed.
      match type of Ed with
      | _ = (_, set_YOffset ?y _) =>
          assert (Hs : settled (set_YOffset y m))
            by (apply settled_set_YOffset; [exact Hm | lia])
      end.
      destruct (IH _ Hs) as [d' ->]. exists d'.
      cbn [YOffset Height lines set_YOffset]. rewrite set_YOffset_twice.
      pose proof (Z.mul_nonneg_nonneg (Z.of_nat (S k)) (Height m)
                    ltac:(lia) HH) as HK.
      replace (Z.of_nat (S (S k)) * Height m)
        with (Z.of_nat (S k) * Height m + Height m) by lia.
      f_equal. f_equal. lia.
Qed.

(** X13.  From a settled model, [k] calls of [ViewDown] all return and
    leave the offset at [offset + k*Height], capped at the bottom
    [len(lines)-1-Height] (and left alone when it is already there or
    past it); [AtBottom] holds as soon as [k*Height] covers the distance.
    [k] calls of [ViewUp] leave it at [offset - k*Height], capped at 0,
    with [AtTop] as soon as [k*Height] reaches the offset. *)
Theorem paging_reaches_the_ends (k : nat) (m : ViewportModel) :
  settled m ->
  let down := times k ViewDown m in
  let up := times k ViewUp m in
  (exists d, result down = Ok d)
  /\ YOffset (after down)
     = Z.max (YOffset m)
         (Z.min (YOffset m + Z.of_nat k * Height m)
            (len (lines m) - 1 - Height m))
  /\ (len (lines m) - 1 - Height m - YOffset m <= Z.of_nat k * Height m ->
      AtBottom (after down) = true)
  /\ (exists d, result up = Ok d)
  /\ YOffset (after up)
     = Z.min (YOffset m) (Z.max (YOffset m - Z.of_nat k * Height m) 0)
  /\ (YOffset m <= Z.of_nat k * Height m -> AtTop (after up) = true).
Proof.
  intros Hm. cbv zeta.
  destruct (times_ViewDown_offset k m Hm) as [d ->].
  destruct (times_ViewUp_offset k m Hm) as [d' ->].
  destruct Hm as [[HrH [HrY HrL]] [HH HY]].
  pose proof (len_nonneg (lines m)) as HL0.
  unfold AtBottom, AtTop, bottom_offset.
  cbn [after result fst snd YOffset Height lines set_YOffset].
  unwrap.
  repeat split; try (eexists; reflexivity); intros; lia.
Qed.

Lemma paging_reaches_the_ends_witness :
  let down := times 3 ViewDown ten_lines in
  let up := times 2 ViewUp (set_YOffset 5 ten_lines) in
  (exists d, result down = Ok d)
  /\ YOffset (after down)
     = Z.max (YOffset ten_lines)
         (Z.min (YOffset ten_lines + Z.of_nat 3 * Height ten_lines)
            (len (lines ten_lines) - 1 - Height ten_lines))
  /\ AtBottom (after down) = true
  /\ (exists d, result up = Ok d)
  /\ YOffset (after up) = 0
  /\ AtTop (after up) = true.
Proof.
  cbv zeta.
  assert (Hs : settled ten_lines).
  { unfold settled, well_formed, Int.in_range. vm_compute.
    repeat split; discriminate. }
  assert (Hs' : settled (set_YOffset 5 ten_lines)).
  { unfold settled, well_formed, Int.in_range. vm_compute.
    repeat split; discriminate. }
  destruct (paging_reaches_the_ends 3 ten_lines Hs)
    as (H1 & H2 & H3 & _).
  destruct (paging_reaches_the_ends 2 (set_YOffset 5 ten_lines) Hs')
    as (_ & _ & _ & H4 & H5 & H6).
  refine (conj H1 (conj H2 (conj (H3 _) (conj H4 (conj H5 (H6 _)))))).
  - vm_compute. discriminate.
  - vm_compute. discriminate.
Defined.

(** ** Jumps *)

Lemma GotoBottom_run (m : ViewportModel) :
  well_formed m -> 0 <= Height m ->
  exists d,
    GotoBottom m
    = (Ok d, set_YOffset (Z.max (len (lines m) - 1 - Height m) 0) m).
Proof.
  intros [HrH [HrY HrL]] HH. pose proof (len_nonneg (lines m)) as HL0.
  run. cases; arith; try (rewrite slice_ok by lia); eexists; reflexivity.
Qed.

Lemma GotoTop_run (m : ViewportModel) :
  well_formed m -> 0 <= Height m ->
  exists d, GotoTop m = (Ok d, set_YOffset (Z.min (YOffset m) 0) m).
Proof.
  intros [HrH [HrY HrL]] HH. pose proof (len_nonneg (lines m)) as HL0.
  run. cases; arith; try (rewrite slice_ok by lia); eexists;
    (f_equal; first [apply set_YOffset_eq; cbn [YOffset]; lia | f_equal; lia]).
Qed.

Lemma well_formed_set_YOffset (y : Z) (m : ViewportModel) :
  well_formed m -> Int.in_range y -> well_formed (set_YOffset y m).
Proof.
  intros [HrH [HrY HrL]] Hy. unfold well_formed.
  cbn [Height YOffset lines set_YOffset]. auto.
Qed.

(** [GotoBottom] does not read the offset. *)
Lemma GotoBottom_ignores_offset (y : Z) (m : ViewportModel) :
  GotoBottom (set_YOffset y m) = GotoBottom m.
Proof. reflexivity. Qed.

(** X14.  [GotoBottom] repairs any offset: whatever the offset of a
    well-formed model with a height that is not negative (past the bottom
    after a resize, beyond the content, negative), the call returns and
    leaves offset [max(len(lines)-1-Height, 0)], a settled model within
    its bound with [AtBottom] true; a second call changes nothing. *)
Theorem GotoBottom_repairs (m : ViewportModel) :
  well_formed m -> 0 <= Height m ->
  exists d m',
    GotoBottom m = (Ok d, m')
    /\ YOffset m' = Z.max (len (lines m) - 1 - Height m) 0
    /\ settled m' /\ bounded m' /\ AtBottom m' = true
    /\ GotoBottom m' = (Ok d, m').
Proof.
  intros Hwf HH. pose proof Hwf as [HrH [HrY HrL]].
  pose proof (len_nonneg (lines m)) as HL0.
  destruct (GotoBottom_run m Hwf HH) as [d E].
  exists d, (set_YOffset (Z.max (len (lines m) - 1 - Height m) 0) m).
  split; [exact E |]. split; [reflexivity |].
  assert (Hwf' : well_formed
                   (set_YOffset (Z.max (len (lines m) - 1 - Height m) 0) m))
    by (apply well_formed_set_YOffset; [exact Hwf | int_range]).
  split; [| split; [| split]].
  - split; [exact Hwf' |]. cbn [Height YOffset lines set_YOffset]. lia.
  - unfold bounded. cbn [Height YOffset lines set_YOffset]. lia.
  - unfold AtBottom, bottom_offset. cbn [Height YOffset lines set_YOffset].
    unwrap. lia.
  - rewrite GotoBottom_ignores_offset. exact E.
Qed.

Lemma GotoBottom_repairs_witness :
  exists d m',
    GotoBottom (set_YOffset 40 ten_lines) = (Ok d, m')
    /\ YOffset m'
       = Z.max (len (lines (set_YOffset 40 ten_lines)) - 1
                - Height (set_YOffset 40 ten_lines)) 0
    /\ settled m' /\ bounded m' /\ AtBottom m' = true
    /\ GotoBottom m' = (Ok d, m').
Proof.
  refine (GotoBottom_repairs (set_YOffset 40 ten_lines) _ _).
  - unfold well_formed, Int.in_range. vm_compute. repeat split; discriminate.
  - vm_compute. discriminate.
Defined.

(** X15.  On a well-formed model with a height that is not negative the
    two jumps compose as expected and both return: [GotoTop] then
    [GotoBottom] ends at offset [max(len(lines)-1-Height, 0)], and
    [GotoBottom] then [GotoTop] ends at offset 0. *)
Theorem jumps_compose (m : ViewportModel) :
  well_formed m -> 0 <= Height m ->
  (exists d, result ((GotoTop ;;; GotoBottom) m) = Ok d)
  /\ YOffset (after ((GotoTop ;;; GotoBottom) m))
     = Z.max (len (lines m) - 1 - Height m) 0
  /\ (exists d, result ((GotoBottom ;;; GotoTop) m) = Ok d)
  /\ YOffset (after ((GotoBottom ;;; GotoTop) m)) = 0.
Proof.
  intros Hwf HH. pose proof Hwf as [HrH [HrY HrL]].
  pose proof (len_nonneg (lines m)) as HL0.
  destruct (GotoTop_run m Hwf HH) as [d1 E1].
  destruct (GotoBottom_run m Hwf HH) as [d2 E2].
  assert (Hwf2 : well_formed
                   (set_YOffset (Z.max (len (lines m) - 1 - Height m) 0) m))
    by (apply well_formed_set_YOffset; [exact Hwf | int_range]).
  destruct (GotoTop_run _ Hwf2 HH) as [d3 E3].
  unfold bind. rewrite E1, GotoBottom_ignores_offset, E2, E3.
  cbn [after result fst snd YOffset set_YOffset].
  repeat split; try (eexists; reflexivity). lia.
Qed.

Lemma jumps_compose_witness :
  let m := set_YOffset 4 ten_lines in
  (exists d, result ((GotoTop ;;; GotoBottom) m) = Ok d)
  /\ YOffset (after ((GotoTop ;;; GotoBottom) m))
     = Z.max (len (lines m) - 1 - Height m) 0
  /\ (exists d, result ((GotoBottom ;;; GotoTop) m) = Ok d)
  /\ YOffset (after ((GotoBottom ;;; GotoTop) m)) = 0.
Proof.
  refine (jumps_compose (set_YOffset 4 ten_lines) _ _).
  - unfold well_formed, Int.in_range. vm_compute. repeat split; discriminate.
  - vm_compute. discriminate.
Defined.

(** ** What a content replacement leaves alone *)

(** X16.  [SetContent] writes the lines and, at most, the offset: the
    other fields are as before, whether it returns or panics.  When the
    offset designates a line of the new content ([offset <= len(lines)-1])
    the call returns for every height, negative ones included, and leaves
    the offset as it was. *)
Theorem SetContent_frame (s : string) (m : ViewportModel) :
  let m' := after (SetContent s m) in
  Width m' = Width m /\ Height m' = Height m
  /\ YPosition m' = YPosition m
  /\ HighPerformanceRendering m' = HighPerformanceRendering m
  /\ (Z.of_nat (String.length s) < Int.max_int ->
      YOffset m <= len (split_lines (normalize s)) - 1 ->
      SetContent s m = (Ok tt, set_lines (split_lines (normalize s)) m)).
Proof.
  cbv zeta.
  assert (Hf : exists y,
             after (SetContent s m)
             = set_YOffset y (set_lines (split_lines (normalize s)) m)).
  { destruct (YOffset m >? Int.sub (len (split_lines (normalize s))) 1) eqn:E.
    - rewrite (SetContent_snap s m E), GotoBottom_after. eauto.
    - exists (YOffset m).
      unfold SetContent, bind, put_lines, get, ret, after.
      cbn [lines YOffset set_lines]. rewrite E. reflexivity. }
  destruct Hf as [y ->].
  repeat split.
  intros Hs Hoff. pose proof (content_lines s) as HL.
  unfold SetContent, bind, put_lines, get, ret.
  cbn [lines YOffset set_lines].
  unfold Int.sub. rewrite wrap_id by int_range.
  destruct (YOffset m >? len (split_lines (normalize s)) - 1) eqn:E;
    [lia | reflexivity].
Qed.

Lemma SetContent_frame_witness :
  let m := set_YOffset 2 (set_Height (-3) zero_model) in
  let s := numbered 1 6 in
  SetContent s m = (Ok tt, set_lines (split_lines (normalize s)) m).
Proof.
  cbv zeta.
  refine (proj2 (proj2 (proj2 (proj2
            (SetContent_frame (numbered 1 6)
               (set_YOffset 2 (set_Height (-3) zero_model)))))) _ _).
  - vm_compute. reflexivity.
  - vm_compute. discriminate.
Defined.

(** ** The bottom predicates and the clamp *)

(** X17.  On a settled model within its offset bound, [PastBottom] is
    true exactly when the height exceeds [len(lines)-1], that is, when the
    whole content fits in the window; the offset is then 0 and [AtTop] and
    [AtBottom] hold as well.  Otherwise [AtBottom] holds exactly at
    offset [len(lines)-1-Height]. *)
Theorem PastBottom_when_content_fits (m : ViewportModel) :
  settled m -> bounded m ->
  (PastBottom m = true <-> len (lines m) - 1 < Height m)
  /\ (PastBottom m = true ->
      YOffset m = 0 /\ AtTop m = true /\ AtBottom m = true)
  /\ (PastBottom m = false ->
      (AtBottom m = true <-> YOffset m = len (lines m) - 1 - Height m)).
Proof.
  intros [[HrH [HrY HrL]] [HH HY]] Hb. unfold bounded in Hb.
  pose proof (len_nonneg (lines m)) as HL0.
  unfold PastBottom, AtBottom, AtTop, bottom_offset. unwrap.
  repeat split; intros; lia.
Qed.

Lemma PastBottom_when_content_fits_witness :
  (PastBottom five_lines = true
   <-> len (lines five_lines) - 1 < Height five_lines)
  /\ (YOffset five_lines = 0 /\ AtTop five_lines = true
      /\ AtBottom five_lines = true)
  /\ (AtBottom (set_YOffset 6 ten_lines) = true
      <-> YOffset (set_YOffset 6 ten_lines)
          = len (lines (set_YOffset 6 ten_lines)) - 1
            - Height (set_YOffset 6 ten_lines)).
Proof.
  assert (Hs : settled five_lines /\ bounded five_lines).
  { unfold settled, well_formed, bounded, Int.in_range. vm_compute.
    repeat split; discriminate. }
  assert (Hs' : settled (set_YOffset 6 ten_lines)
                /\ bounded (set_YOffset 6 ten_lines)).
  { unfold settled, well_formed, bounded, Int.in_range. vm_compute.
    repeat split; discriminate. }
  destruct (PastBottom_when_content_fits five_lines (proj1 Hs) (proj2 Hs))
    as (H1 & H2 & _).
  destruct (PastBottom_when_content_fits (set_YOffset 6 ten_lines)
              (proj1 Hs') (proj2 Hs')) as (_ & _ & H3).
  exact (conj H1 (conj (H2 eq_refl) (H3 eq_refl))).
Defined.

(** X18.  [clamp(v, low, high)] never exceeds [high]; when
    [low <= high] it lies in [low .. high] and is [v] itself for a [v]
    in that range; when [low > high] it is [high], whatever [v]. *)
Theorem clamp_range (v low high : Z) :
  clamp v low high <= high
  /\ (low <= high ->
      low <= clamp v low high
      /\ (low <= v <= high -> clamp v low high = v))
  /\ (high < low -> clamp v low high = high).
Proof. rewrite clamp_spec. repeat split; intros; lia. Qed.

Lemma clamp_range_witness :
  clamp 12 3 9 <= 9
  /\ (3 <= clamp 12 3 9 /\ clamp 5 3 9 = 5)
  /\ clamp 5 9 3 = 3.
Proof.
  destruct (clamp_range 12 3 9) as (H1 & H2 & _).
  destruct (clamp_range 5 3 9) as (_ & H3 & _).
  destruct (clamp_range 5 9 3) as (_ & _ & H4).
  assert (L39 : 3 <= 9) by discriminate.
  assert (L359 : 3 <= 5 <= 9) by (split; discriminate).
  assert (L93 : 3 < 9) by reflexivity.
  exact (conj H1 (conj (conj (proj1 (H2 L39)) (proj2 (H3 L39) L359))
                       (H4 L93))).
Defined.
